(** * wallet_ui: the Express route of [server.js] and its three fetchers

    A shallow embedding of [src/server.js], followed by the properties
    of the specification that are settled on it.  The file holds two
    versions of the server one after the other; the one embedded is the
    first (lines 1-194: the three fetchers [getWalletBalances],
    [getWalletActivity], [getWalletCollectibles] and the [app.get('/')]
    handler that joins them), which is the one the specification
    describes.  The second (lines 195-303) is an earlier stage of the
    same handler, with the balances only and a constant total.

    Layout:
    - [JS]: the fragment of ECMAScript the program runs on: values,
      completions, numbers as IEEE-754 binary64 ([PrimFloat.float]),
      [parseFloat], [parseInt], [Number.prototype.toFixed],
      [Number::toString], [ToString], property reads and object spread.
    - [Server]: the functions of [server.js], over a [Host] (the two
      library calls the file makes: [Math.pow] and [numbro(..).format(..)])
      and an [upstream] (what the remote API answers to each URL).
    - The theorems. *)

From Stdlib Require Import ZArith Floats Ascii String.
From stdpp Require Import gmap strings list.

#[local] Set Warnings "-register-all".
#[local] Open Scope string_scope.
#[local] Open Scope Z_scope.

(* ===================================================================== *)
(** * The host language                                                   *)
(* ===================================================================== *)

Module JS.

(** ** Values

    The values the program handles come out of [JSON.parse] (response
    bodies) and out of the query-string parser ([req.query]): primitives,
    arrays and plain objects, none of them holding a function.
    [VUndefined] is what reading an absent property gives.  Strings are
    sequences of code units below 256. *)

Inductive value : Type :=
| VUndefined
| VNull
| VBool (b : bool)
| VNum (x : float)
| VStr (s : string)
| VArr (l : list value)
| VObj (o : gmap string value).

(** ** Completions: a call returns normally or throws. *)

Inductive exn : Type :=
| TypeError (message : string)
| SyntaxError (message : string)
| Error (message : string).

Inductive completion (A : Type) : Type :=
| Normal (a : A)
| Throw (e : exn).
Arguments Normal {A} a.
Arguments Throw {A} e.

#[global] Instance completion_ret : MRet completion := fun A a => Normal a.

#[global] Instance completion_bind : MBind completion := fun A B k c =>
  match c with
  | Normal a => k a
  | Throw e => Throw e
  end.

(** ** Numbers: correctly rounded decimal to binary64 *)

(** Number of decimal digits of [n > 0] ([1] for [n <= 9]). *)
Fixpoint decimal_length_go (fuel : nat) (n : Z) : Z :=
  match fuel with
  | O => 1
  | S fuel' => if n <? 10 then 1 else 1 + decimal_length_go fuel' (n / 10)
  end.

Definition decimal_length (n : Z) : Z :=
  decimal_length_go (Z.to_nat (Z.log2 n)) n.

Definition signed_zero (neg : bool) : float :=
  if neg then PrimFloat.neg_zero else PrimFloat.zero.

Definition signed_infinity (neg : bool) : float :=
  if neg then PrimFloat.neg_infinity else PrimFloat.infinity.

(** The Number value for the real [m * 10^e] ([m >= 0]), negated when
    [neg]: round to nearest, ties to even, overflow to an infinity.
    Values too large or too small for any finite binary64 are cut off
    before the power of ten is built. *)
Definition number_of_decimal (neg : bool) (m e : Z) : float :=
  if m <=? 0 then signed_zero neg
  else
    let len := decimal_length m in
    if 310 <? len + e then signed_infinity neg
    else if len + e <? -330 then signed_zero neg
    else if 0 <=? e then
      SF2Prim (binary_round prec emax neg (Z.to_pos (m * 10 ^ e)) 0)
    else
      let '(q, e', l) := SFdiv_core_binary prec emax m 0 (10 ^ (- e)) 0 in
      SF2Prim (binary_round_aux prec emax neg q e' l).

(** A finite non-zero number as sign and exact fraction [num / den]. *)
Definition fraction_of (x : float) : option (bool * Z * Z) :=
  match Prim2SF x with
  | S754_finite s m e =>
      if 0 <=? e then Some (s, Z.pos m * 2 ^ e, 1)
      else Some (s, Z.pos m, 2 ^ (- e))
  | _ => None
  end.

(** ** Decimal digits *)

Definition digit_char (d : Z) : ascii :=
  ascii_of_nat (48 + Z.to_nat d)%nat.

Fixpoint digits_go (fuel : nat) (n : Z) (acc : string) : string :=
  match fuel with
  | O => acc
  | S fuel' =>
      let acc' := String (digit_char (n mod 10)) acc in
      if n <? 10 then acc' else digits_go fuel' (n / 10) acc'
  end.

(** The decimal numeral of [n >= 0], without leading zeros. *)
Definition digits (n : Z) : string :=
  digits_go (S (Z.to_nat (Z.log2 n))) n "".

Fixpoint zeros (n : nat) : string :=
  match n with
  | O => ""
  | S n' => String "0" (zeros n')
  end.

Definition str_take (n : nat) (s : string) : string := substring 0 n s.
Definition str_drop (n : nat) (s : string) : string := substring n (String.length s - n)%nat s.

(** ** Number::toString (radix 10), ECMA-262 6.1.6.1.20 *)

(** For [0 < num / den < 1]: the least [j >= 1] with
    [num * 10^j >= den]. *)
Fixpoint leading_shift (fuel : nat) (num den j : Z) : Z :=
  match fuel with
  | O => j
  | S fuel' =>
      if den <=? num * 10 ^ j then j else leading_shift fuel' num den (j + 1)
  end.

(** The [n] with [10^(n-1) <= num / den < 10^n]. *)
Definition decimal_exponent (num den : Z) : Z :=
  if den <=? num then decimal_length (num / den)
  else 1 - leading_shift 400 num den 1.

(** [s * 10^p] written with [s] in [[10^(k-1), 10^k)]: a candidate
    [10^k] is the one-digit-shorter [10^(k-1)] one exponent up. *)
Definition normalize_candidate (s n k : Z) : Z * Z :=
  if s =? 10 ^ k then (10 ^ (k - 1), n + 1) else (s, n).

(** Step 5 of Number::toString: integers [n], [k], [s] with [k >= 1],
    [10^(k-1) <= s < 10^k], the Number value for [s * 10^(n-k)] being
    [x], [k] as small as possible; among several [s] the one closest to
    [x], the even one on a tie.  [x = num / den > 0];
    [n0 = decimal_exponent num den]; [k] runs from 1 to 17. *)
Fixpoint shortest_go (fuel : nat) (x : float) (num den n0 k : Z) : Z * Z :=
  let p := n0 - k in
  let a := if 0 <=? p then num else num * 10 ^ (- p) in
  let b := if 0 <=? p then den * 10 ^ p else den in
  let lo := a / b in
  let r := a mod b in
  let hi := lo + 1 in
  let ok_lo := PrimFloat.eqb (number_of_decimal false lo p) x in
  let ok_hi := PrimFloat.eqb (number_of_decimal false hi p) x in
  match fuel with
  | O => (lo, n0)
  | S fuel' =>
      if ok_lo && ok_hi then
        if 2 * r <? b then (lo, n0)
        else if b <? 2 * r then normalize_candidate hi n0 k
        else if Z.even lo then (lo, n0)
        else normalize_candidate hi n0 k
      else if ok_lo then (lo, n0)
      else if ok_hi then normalize_candidate hi n0 k
      else shortest_go fuel' x num den n0 (k + 1)
  end.

Definition shortest_digits (x : float) (num den : Z) : Z * Z :=
  shortest_go 17 x num den (decimal_exponent num den) 1.

(** Steps 6-10: the placement of the decimal point or the exponent. *)
Definition place_digits (s n : Z) : string :=
  let ds := digits s in
  let k := Z.of_nat (String.length ds) in
  if (k <=? n) && (n <=? 21) then
    ds +:+ zeros (Z.to_nat (n - k))
  else if (0 <? n) && (n <=? 21) then
    str_take (Z.to_nat n) ds +:+ "." +:+ str_drop (Z.to_nat n) ds
  else if (-6 <? n) && (n <=? 0) then
    "0." +:+ zeros (Z.to_nat (- n)) +:+ ds
  else
    let e := n - 1 in
    let exponent := (if e <? 0 then "-" else "+") +:+ digits (Z.abs e) in
    if k =? 1 then ds +:+ "e" +:+ exponent
    else str_take 1 ds +:+ "." +:+ str_drop 1 ds +:+ "e" +:+ exponent.

Definition Number_toString (x : float) : string :=
  if PrimFloat.is_nan x then "NaN"
  else if PrimFloat.is_zero x then "0"
  else if PrimFloat.is_infinity x then
    (if PrimFloat.ltb x PrimFloat.zero then "-Infinity" else "Infinity")
  else
    match fraction_of x with
    | Some (neg, num, den) =>
        let '(s, n) := shortest_digits (PrimFloat.abs x) num den in
        (if neg then "-" else "") +:+ place_digits s n
    | None => "NaN"
    end.

(** ** Number.prototype.toFixed, ECMA-262 21.1.3.3 *)

(** [toFixed f x] is [x.toFixed(f)] for an integer [0 <= f <= 100]
    (outside that range the method throws a RangeError; the program
    calls it with the literal 2). *)
Definition toFixed (f : nat) (x : float) : string :=
  if negb (PrimFloat.is_finite x) then Number_toString x
  else
    match fraction_of x with
    | None => (* x is +0 or -0 *)
        if Nat.eqb f 0 then "0" else "0." +:+ zeros f
    | Some (neg, num, den) =>
        if PrimFloat.leb 1e21%float (PrimFloat.abs x) then Number_toString x
        else
          (* the integer n with n / 10^f - x closest to zero, the larger
             of two *)
          let n := (2 * num * 10 ^ Z.of_nat f + den) / (2 * den) in
          let m := digits n in
          let m := if Nat.eqb f 0 then m
                   else
                     let k := String.length m in
                     let m := if (k <=? f)%nat then zeros (f + 1 - k) +:+ m else m in
                     let k := String.length m in
                     str_take (k - f) m +:+ "." +:+ str_drop (k - f) m in
          (if neg then "-" else "") +:+ m
    end.

(** ** Reading numerals: [parseFloat] and [parseInt] *)

Definition is_digit (c : ascii) : bool :=
  let n := nat_of_ascii c in (48 <=? n)%nat && (n <=? 57)%nat.

Definition digit_value (c : ascii) : Z := Z.of_nat (nat_of_ascii c) - 48.

(** Value of a hexadecimal digit, if [c] is one. *)
Definition hex_value (c : ascii) : option Z :=
  let n := nat_of_ascii c in
  if (48 <=? n)%nat && (n <=? 57)%nat then Some (Z.of_nat n - 48)
  else if (65 <=? n)%nat && (n <=? 70)%nat then Some (Z.of_nat n - 55)
  else if (97 <=? n)%nat && (n <=? 102)%nat then Some (Z.of_nat n - 87)
  else None.

(** StrWhiteSpaceChar among the code units below 256: TAB, LF, VT, FF,
    CR, SP and NBSP. *)
Definition is_white_space (c : ascii) : bool :=
  let n := nat_of_ascii c in
  ((9 <=? n)%nat && (n <=? 13)%nat) || Nat.eqb n 32 || Nat.eqb n 160.

Fixpoint trim_start (s : string) : string :=
  match s with
  | String c rest => if is_white_space c then trim_start rest else s
  | EmptyString => s
  end.

(** The longest run of decimal digits at the head of [s], read after the
    digits already in [acc]: the value read, the number of digits of
    this run, and what follows. *)
Fixpoint read_digits (s : string) (acc count : Z) : Z * Z * string :=
  match s with
  | String c rest =>
      if is_digit c then read_digits rest (10 * acc + digit_value c) (count + 1)
      else (acc, count, s)
  | EmptyString => (acc, count, s)
  end.

Fixpoint read_hex_digits (s : string) (acc count : Z) : Z * Z :=
  match s with
  | String c rest =>
      match hex_value c with
      | Some d => read_hex_digits rest (16 * acc + d) (count + 1)
      | None => (acc, count)
      end
  | EmptyString => (acc, count)
  end.

Definition read_sign (s : string) : bool * string :=
  match s with
  | String "-"%char rest => (true, rest)
  | String "+"%char rest => (false, rest)
  | _ => (false, s)
  end.

(** ExponentPart: [e] or [E], an optional sign, at least one digit.
    An incomplete exponent is not part of the numeral. *)
Definition read_exponent (s : string) : Z :=
  match s with
  | String c rest =>
      if Ascii.eqb c "e" || Ascii.eqb c "E" then
        let '(neg, rest') := read_sign rest in
        let '(e, count, _) := read_digits rest' 0 0 in
        if count =? 0 then 0 else if neg then - e else e
      else 0
  | EmptyString => 0
  end.

(** [parseFloat] on a string (ECMA-262 19.2.4, steps 2-6): the longest
    prefix of the trimmed string that is a StrDecimalLiteral, and the
    Number value for it, correctly rounded whatever the number of its
    digits. *)
Definition parseFloat_string (input : string) : float :=
  let '(neg, s) := read_sign (trim_start input) in
  if String.prefix "Infinity" s then signed_infinity neg
  else
    let '(m1, n1, s1) := read_digits s 0 0 in
    let '(m2, n2, s2) :=
      match s1 with
      | String "."%char rest => read_digits rest m1 0
      | _ => (m1, 0, s1)
      end in
    if (n1 =? 0) && (n2 =? 0) then PrimFloat.nan
    else number_of_decimal neg m2 (read_exponent s2 - n2).

(** [parseInt] on a string with the radix left out (ECMA-262 19.2.5):
    radix 10, or 16 after a [0x] / [0X] prefix. *)
Definition parseInt_string (input : string) : float :=
  let '(neg, s) := read_sign (trim_start input) in
  let '(mathInt, count) :=
    match s with
    | String "0"%char (String c rest) =>
        if Ascii.eqb c "x" || Ascii.eqb c "X" then read_hex_digits rest 0 0
        else let '(m, n, _) := read_digits s 0 0 in (m, n)
    | _ => let '(m, n, _) := read_digits s 0 0 in (m, n)
    end in
  if count =? 0 then PrimFloat.nan else number_of_decimal neg mathInt 0.

(** ** ToString, ECMA-262 7.1.17 *)

(** An array joins its elements with commas, [undefined] and [null]
    counting as empty.  A plain object prints as [[object Object]]
    through [Object.prototype.toString], unless it has an own property
    named [toString]: that property holds data, not a function, the
    inherited [valueOf] returns the object itself, and
    OrdinaryToPrimitive throws. *)
Fixpoint ToString (v : value) : completion string :=
  match v with
  | VUndefined => Normal "undefined"
  | VNull => Normal "null"
  | VBool b => Normal (if b then "true" else "false")
  | VNum x => Normal (Number_toString x)
  | VStr s => Normal s
  | VArr l =>
      let element (v : value) : completion string :=
        match v with
        | VUndefined | VNull => Normal ""
        | _ => ToString v
        end in
      (fix join (l : list value) : completion string :=
         match l with
         | [] => Normal ""
         | [v] => element v
         | v :: rest => s ← element v; r ← join rest; Normal (s +:+ "," +:+ r)
         end) l
  | VObj o =>
      match o !! "toString" with
      | Some _ => Throw (TypeError "Cannot convert object to primitive value")
      | None => Normal "[object Object]"
      end
  end.

Definition parseFloat (v : value) : completion float :=
  s ← ToString v; Normal (parseFloat_string s).

Definition parseInt (v : value) : completion float :=
  s ← ToString v; Normal (parseInt_string s).

(** ** ToBoolean, property reads, spread, strict equality *)

Definition truthy (v : value) : bool :=
  match v with
  | VUndefined | VNull => false
  | VBool b => b
  | VNum x => negb (PrimFloat.is_zero x || PrimFloat.is_nan x)
  | VStr s => negb (String.eqb s "")
  | VArr _ | VObj _ => true
  end.

(** [v.name] for a [name] that no built-in prototype defines and that is
    neither an index nor [length] (the program reads [balances],
    [activity], [collectibles], [amount], [decimals], [value_usd] and
    [symbol]): the own property of an object, [undefined] on every other
    value, a TypeError on [undefined] and [null]. *)
Definition get (v : value) (name : string) : completion value :=
  match v with
  | VUndefined => Throw (TypeError ("Cannot read properties of undefined (reading '" +:+ name +:+ "')"))
  | VNull => Throw (TypeError ("Cannot read properties of null (reading '" +:+ name +:+ "')"))
  | VObj o => Normal (default VUndefined (o !! name))
  | _ => Normal VUndefined
  end.

(** The property name of the array index [i]. *)
Definition index_key (i : nat) : string := digits (Z.of_nat i).

(** The own enumerable properties that [{...v}] copies: those of an
    object, the indexed elements of an array, the indexed characters of
    a string, nothing otherwise. *)
Definition own_enumerable (v : value) : gmap string value :=
  match v with
  | VObj o => o
  | VArr l => list_to_map (imap (fun i x => (index_key i, x)) l)
  | VStr s =>
      list_to_map (imap (fun i c => (index_key i, VStr (String c "")))
                        (list_ascii_of_string s))
  | _ => ∅
  end.

(** The value of a parameter declared with a default, [f(.., p = d)]:
    the default applies when the argument is left out ([None]) and when
    it is [undefined]. *)
Definition default_parameter (d : value) (argument : option value) : value :=
  match argument with
  | None | Some VUndefined => d
  | Some v => v
  end.

(** [v === s] for a string [s]. *)
Definition strict_equals_string (v : value) (s : string) : bool :=
  match v with
  | VStr t => String.eqb t s
  | _ => false
  end.

End JS.

(* ===================================================================== *)
(** * server.js                                                           *)
(* ===================================================================== *)

Module Server.
Import JS.

(** ** What the file runs against *)

(** What the variable [totalWalletUSDValue] of the route handler holds:
    a number (lines 144, 154 and 169) or a string (line 159).  It is
    also what is handed to [numbro(..)]. *)
Inductive scalar : Type :=
| SNum (x : float)
| SStr (s : string).

(** The two library calls of the file.  [Math.pow] is
    implementation-approximated in ECMA-262 (Number::exponentiate), which
    fixes only its special cases; the one used below is that a NaN
    exponent gives NaN.  [numbro_format fmt v] stands for
    [numbro(v).format(fmt)] of the numbro package, taken to return a
    string on every input. *)
Class Host : Type := {
  Math_pow : float -> float -> float;
  Math_pow_NaN : forall base, Math_pow base PrimFloat.nan = PrimFloat.nan;
  numbro_format : string -> scalar -> string;
}.

(** A settled [fetch]: the promise rejects, or resolves to a response.
    [json] is what [response.json()] settles to: the parsed body, or a
    rejection on a body that is not JSON. *)
Record response : Type := {
  status : Z;
  statusText : string;
  json : completion value;
}.

Definition ok (r : response) : bool :=
  (200 <=? status r) && (status r <=? 299).

Inductive fetched : Type :=
| Rejected (e : exn)
| Resolved (r : response).

(** The remote API: what it answers to a request for each URL. *)
Definition upstream : Type := string -> fetched.

(** ** Asynchronous calls

    An [async] call is followed to its settlement: how it completes, and
    the URLs it requested on the way, in the order the requests were
    issued.  Every [fetch] is taken to settle.  Output to the console is
    not part of the model. *)
Record run (A : Type) : Type := Run {
  outcome : completion A;
  requests : list string;
}.
Arguments Run {A} outcome requests.
Arguments outcome {A} r.
Arguments requests {A} r.

#[global] Instance run_ret : MRet run := fun A a => Run (Normal a) [].

#[global] Instance run_bind : MBind run := fun A B k m =>
  match outcome m with
  | Normal a => Run (outcome (k a)) (requests m ++ requests (k a))
  | Throw e => Run (Throw e) (requests m)
  end.

Definition lift {A} (c : completion A) : run A := Run c [].

Definition throw {A} (e : exn) : run A := Run (Throw e) [].

(** [try { body } catch (error) { handler }] *)
Definition try_catch {A} (body : run A) (handler : exn -> run A) : run A :=
  match outcome body with
  | Normal _ => body
  | Throw e => Run (outcome (handler e)) (requests body ++ requests (handler e))
  end.

Definition fetch (api : upstream) (url : string) : run response :=
  Run (match api url with
       | Rejected e => Throw e
       | Resolved r => Normal r
       end) [url].

(** [await Promise.all([a, b, c])]: the three calls are made in order,
    each running up to its first [await], so the requests go out in that
    order; the join fulfils with the three results, or rejects with the
    rejection of the first call that rejected. *)
Definition Promise_all3 {A B C} (a : run A) (b : run B) (c : run C) : run (A * B * C) :=
  Run (x ← outcome a; y ← outcome b; z ← outcome c; Normal (x, y, z))
      (requests a ++ requests b ++ requests c).

Section WithHost.
Context {host : Host}.

(** ** getWalletBalances (lines 29-76) *)

(** Line 58: the human-readable token amount. *)
Definition numericAmount (token : value) : completion float :=
  amount ← get token "amount";
  a ← parseFloat amount;
  decimals ← get token "decimals";
  d ← parseInt decimals;
  Normal (PrimFloat.div a (Math_pow 10%float d)).

(** Lines 56-69: the callback of [.map]. *)
Definition format_token (token : value) : completion (gmap string value) :=
  numericAmount ← numericAmount token;
  value_usd ← get token "value_usd";
  numericValueUSD ← parseFloat value_usd;
  let valueUSDFormatted := numbro_format "$0,0.00" (SNum numericValueUSD) in
  let amountFormatted := numbro_format "0,0.[00]A" (SNum numericAmount) in
  Normal (<["amountFormatted" := VStr amountFormatted]>
          (<["valueUSDFormatted" := VStr valueUSDFormatted]>
           (own_enumerable token))).

(** [token.symbol] on a record built by [format_token]. *)
Definition symbol (token : gmap string value) : value :=
  default VUndefined (token !! "symbol").

(** Line 70: the callback of [.filter]. *)
Definition not_spam (token : gmap string value) : bool :=
  negb (strict_equals_string (symbol token) "RTFKT").

(** Lines 56-70: [(data.balances || []).map(..).filter(..)].  Only an
    array has a [map] method: on any other truthy value the call is a
    TypeError. *)
Definition format_balances (data : value) : completion (list (gmap string value)) :=
  balances ← get data "balances";
  match (if truthy balances then balances else VArr []) with
  | VArr tokens =>
      formatted ← mapM format_token tokens;
      Normal (filter (fun token => Is_true (not_spam token)) formatted)
  | _ => Throw (TypeError "(data.balances || []).map is not a function")
  end.

(** When the response is not [ok] the body text is awaited and logged
    and an [Error] is thrown (lines 47-51); whichever of the two fails,
    control reaches the [catch] of line 72, which ignores which error it
    got. *)
Definition getWalletBalances (api : upstream) (walletAddress : value)
  : run (list (gmap string value)) :=
  if negb (truthy walletAddress) then mret []
  else
    let queryParams := "metadata=url,logo&exclude_spam_tokens=true" in
    address ← lift (ToString walletAddress);
    let url := "https://api.sim.dune.com/v1/evm/balances/" +:+ address +:+ "?" +:+ queryParams in
    try_catch
      (response ← fetch api url;
       if negb (ok response) then
         throw (Error ("API request failed: " +:+ statusText response))
       else
         data ← lift (json response);
         lift (format_balances data))
      (fun error => mret []).

(** ** getWalletActivity (lines 77-105), getWalletCollectibles (107-132) *)

(** [data[name] || []] *)
Definition field_or_empty (data : value) (name : string) : completion value :=
  v ← get data name;
  Normal (if truthy v then v else VArr []).

(** [limit = 25] (line 77) and [limit = 50] (line 107) are parameters
    with a default. *)
Definition getWalletActivity (api : upstream) (walletAddress : value)
    (limit : option value) : run value :=
  let limit := default_parameter (VNum 25%float) limit in
  if negb (truthy walletAddress) then mret (VArr [])
  else
    address ← lift (ToString walletAddress);
    limit_text ← lift (ToString limit);
    let url := "https://api.sim.dune.com/v1/evm/activity/" +:+ address +:+ "?limit=" +:+ limit_text in
    try_catch
      (response ← fetch api url;
       if negb (ok response) then
         throw (Error ("Activity API request failed: " +:+ statusText response))
       else
         data ← lift (json response);
         lift (field_or_empty data "activity"))
      (fun error => mret (VArr [])).

Definition getWalletCollectibles (api : upstream) (walletAddress : value)
    (limit : option value) : run value :=
  let limit := default_parameter (VNum 50%float) limit in
  if negb (truthy walletAddress) then mret (VArr [])
  else
    address ← lift (ToString walletAddress);
    limit_text ← lift (ToString limit);
    let url := "https://api.sim.dune.com/v1/evm/collectibles/" +:+ address +:+ "?limit=" +:+ limit_text in
    try_catch
      (response ← fetch api url;
       if negb (ok response) then
         throw (Error ("Collectibles API request failed: " +:+ statusText response))
       else
         data ← lift (json response);
         lift (field_or_empty data "collectibles"))
      (fun error => mret (VArr [])).

End WithHost.

(** ** The route handler (lines 135-189) *)

(** [req.query], as far as the handler reads it: each parameter is
    absent, or the string, array or object the query parser made. *)
Record request : Type := {
  query_walletAddress : option value;
  query_tab : option value;
}.

(** The [let] variables of lines 141-145. *)
Record locals : Type := {
  tokens : list (gmap string value);
  activities : value;
  collectibles : value;
  totalWalletUSDValue : scalar;
  errorMessage : value;
}.

Definition initial : locals :=
  {| tokens := []; activities := VArr []; collectibles := VArr [];
     totalWalletUSDValue := SNum 0%float; errorMessage := VNull |}.

(** The object handed to [res.render('wallet', ..)] (lines 180-188). *)
Module View.
Record t : Type := {
  walletAddress : value;
  currentTab : value;
  totalWalletUSDValue : string;
  tokens : list (gmap string value);
  activities : value;
  collectibles : value;
  errorMessage : value;
}.
End View.

(** A statement of the handler: it runs on the variables, leaves them
    as they are when it completes or throws, and may send requests. *)
Record step (A : Type) : Type := Step {
  result : completion A;
  vars : locals;
  sent : list string;
}.
Arguments Step {A} result vars sent.
Arguments result {A} s.
Arguments vars {A} s.
Arguments sent {A} s.

Definition stmt (A : Type) : Type := locals -> step A.

#[global] Instance stmt_ret : MRet stmt := fun A a st => Step (Normal a) st [].

#[global] Instance stmt_bind : MBind stmt := fun A B k m st =>
  let s := m st in
  match result s with
  | Normal a =>
      let s' := k a (vars s) in
      Step (result s') (vars s') (sent s ++ sent s')
  | Throw e => Step (Throw e) (vars s) (sent s)
  end.

(** An expression: it reads the variables and changes none. *)
Definition expr {A} (f : locals -> completion A) : stmt A :=
  fun st => Step (f st) st [].

Definition assign (f : locals -> locals) : stmt unit :=
  fun st => Step (Normal tt) (f st) [].

Definition await {A} (call : run A) : stmt A :=
  fun st => Step (outcome call) st (requests call).

Definition try_stmt (body : stmt unit) (handler : exn -> stmt unit) : stmt unit :=
  fun st =>
    let s := body st in
    match result s with
    | Normal _ => s
    | Throw e =>
        let s' := handler e (vars s) in
        Step (result s') (vars s') (sent s ++ sent s')
    end.

Fixpoint forEach {A} (l : list A) (callback : A -> stmt unit) : stmt unit :=
  match l with
  | [] => mret tt
  | x :: rest => callback x ≫= fun _ => forEach rest callback
  end.

Definition set_tokens v (st : locals) : locals :=
  {| tokens := v; activities := activities st; collectibles := collectibles st;
     totalWalletUSDValue := totalWalletUSDValue st; errorMessage := errorMessage st |}.
Definition set_activities v (st : locals) : locals :=
  {| tokens := tokens st; activities := v; collectibles := collectibles st;
     totalWalletUSDValue := totalWalletUSDValue st; errorMessage := errorMessage st |}.
Definition set_collectibles v (st : locals) : locals :=
  {| tokens := tokens st; activities := activities st; collectibles := v;
     totalWalletUSDValue := totalWalletUSDValue st; errorMessage := errorMessage st |}.
Definition set_totalWalletUSDValue v (st : locals) : locals :=
  {| tokens := tokens st; activities := activities st; collectibles := collectibles st;
     totalWalletUSDValue := v; errorMessage := errorMessage st |}.
Definition set_errorMessage v (st : locals) : locals :=
  {| tokens := tokens st; activities := activities st; collectibles := collectibles st;
     totalWalletUSDValue := totalWalletUSDValue st; errorMessage := v |}.

Section Handler.
Context {host : Host}.

(** [token.value_usd] on a record built by [format_token]. *)
Definition value_usd (token : gmap string value) : value :=
  default VUndefined (token !! "value_usd").

(** [total += x] for a number [x]: addition on a number, concatenation
    on a string. *)
Definition plus_number (total : scalar) (x : float) : scalar :=
  match total with
  | SNum t => SNum (PrimFloat.add t x)
  | SStr s => SStr (s +:+ Number_toString x)
  end.

(** Lines 150-157.  [tokens] is an array, hence truthy: the test is the
    one on its length. *)
Definition sum_before_fetch : stmt unit :=
  fun st =>
    (if (0 <? length (tokens st))%nat then
       forEach (tokens st) (fun token =>
         individualValue ← expr (fun _ => parseFloat (value_usd token));
         if negb (PrimFloat.is_nan individualValue) then
           assign (fun st =>
             set_totalWalletUSDValue
               (plus_number (totalWalletUSDValue st) individualValue) st)
         else mret tt)
     else mret tt) st.

(** Line 159. *)
Definition format_total : stmt unit :=
  assign (fun st =>
    set_totalWalletUSDValue
      (SStr (numbro_format "$0,0.00" (totalWalletUSDValue st))) st).

(** Lines 161-165. *)
Definition fetch_all (api : upstream) (walletAddress : value) : stmt unit :=
  fetched ← await (Promise_all3
                     (getWalletBalances api walletAddress)
                     (getWalletActivity api walletAddress (Some (VNum 25%float)))
                     (getWalletCollectibles api walletAddress (Some (VNum 50%float))));
  let '(t, a, c) := fetched in
  assign (fun st => set_collectibles c (set_activities a (set_tokens t st))).

(** Lines 169-172: [tokens.reduce(.., 0)]. *)
Fixpoint reduce_value_usd (tokens : list (gmap string value)) (sum : float)
  : completion float :=
  match tokens with
  | [] => Normal sum
  | token :: rest =>
      value ← parseFloat (value_usd token);
      reduce_value_usd rest
        (PrimFloat.add sum (if PrimFloat.is_nan value then 0%float else value))
  end.

(** Lines 168-173. *)
Definition sum_after_fetch : stmt unit :=
  fun st =>
    (if (0 <? length (tokens st))%nat then
       total ← expr (fun st => reduce_value_usd (tokens st) 0%float);
       assign (set_totalWalletUSDValue (SNum total))
     else mret tt) st.

(** Lines 149-159: what the [try] block does before the fetches. *)
Definition before_fetch : stmt unit :=
  sum_before_fetch ≫= fun _ => format_total.

(** Lines 160-173: the fetches and what follows them. *)
Definition fetch_and_sum (api : upstream) (walletAddress : value) : stmt unit :=
  fetch_all api walletAddress ≫= fun _ => sum_after_fetch.

(** Lines 174-177: the [catch] clause. *)
Definition on_error (error : exn) : stmt unit :=
  assign (set_errorMessage (VStr "Failed to fetch wallet data. Please try again.")).

(** Lines 148-177. *)
Definition fetch_wallet (api : upstream) (walletAddress : value) : stmt unit :=
  try_stmt (before_fetch ≫= fun _ => fetch_and_sum api walletAddress) on_error.

(** [total.toFixed(2)] (line 183): a number has the method; on a string
    the property is [undefined] and calling it is a TypeError. *)
Definition call_toFixed (total : scalar) (fractionDigits : nat) : completion string :=
  match total with
  | SNum x => Normal (toFixed fractionDigits x)
  | SStr _ => Throw (TypeError "totalWalletUSDValue.toFixed is not a function")
  end.

(** Lines 180-188: the argument of [res.render]. *)
Definition view_of (walletAddress tab : value) (st : locals) : completion View.t :=
  fixed ← call_toFixed (totalWalletUSDValue st) 2;
  Normal {| View.walletAddress := walletAddress;
            View.currentTab := tab;
            View.totalWalletUSDValue := "$" +:+ fixed;
            View.tokens := tokens st;
            View.activities := activities st;
            View.collectibles := collectibles st;
            View.errorMessage := errorMessage st |}.

(** Lines 141-188 around the [try] statement [wallet_block] of lines
    148-177. *)
Definition respond (walletAddress tab : value) (wallet_block : stmt unit) : run View.t :=
  let s := (if truthy walletAddress then wallet_block else mret tt) initial in
  Run (result s ≫= fun _ => view_of walletAddress tab (vars s)) (sent s).

(** Lines 135-189.  The handler completes normally when it reaches
    [res.render] with a view model (the page is sent with status 200);
    it throws when an exception leaves it before that. *)
Definition handler (api : upstream) (req : request) : run View.t :=
  let walletAddress := default (VStr "") (query_walletAddress req) in
  let tab := default (VStr "tokens") (query_tab req) in
  respond walletAddress tab (fetch_wallet api walletAddress).

(** The handler with the loop of lines 150-157 taken out: the variant
    the handler is compared with. *)
Definition fetch_wallet_without_loop (api : upstream) (walletAddress : value) : stmt unit :=
  try_stmt (format_total ≫= fun _ => fetch_and_sum api walletAddress) on_error.

Definition handler_without_loop (api : upstream) (req : request) : run View.t :=
  let walletAddress := default (VStr "") (query_walletAddress req) in
  let tab := default (VStr "tokens") (query_tab req) in
  respond walletAddress tab (fetch_wallet_without_loop api walletAddress).

End Handler.
End Server.

(* ===================================================================== *)
(** * Data of the examples                                                *)
(* ===================================================================== *)

Module Example.
Import JS Server.

(** A host to evaluate examples on.  Its [Math.pow] is given on base 10
    and an exponent that is an integer, an infinity or NaN, which is all
    the program asks of it (the base is the literal 10 and the exponent
    comes out of [parseInt]); there it is the correctly rounded power,
    which for the exponents 0 to 22 is the exact one.  Elsewhere it
    answers NaN.  Its [numbro] prints the call instead of performing it:
    no statement below depends on what numbro prints. *)
Definition Math_pow (base y : float) : float :=
  if PrimFloat.is_nan y then PrimFloat.nan
  else if negb (PrimFloat.eqb base 10%float) then PrimFloat.nan
  else if PrimFloat.is_infinity y then
    (if PrimFloat.ltb y 0%float then 0%float else PrimFloat.infinity)
  else
    match fraction_of y with
    | None => 1%float
    | Some (neg, num, den) =>
        if num mod den =? 0 then
          number_of_decimal false 1 (if neg then - (num / den) else num / den)
        else PrimFloat.nan
    end.

Definition numbro_format (fmt : string) (v : scalar) : string :=
  "numbro("
  +:+ match v with
      | SNum x => Number_toString x
      | SStr s => "'" +:+ s +:+ "'"
      end
  +:+ ").format('" +:+ fmt +:+ "')".

Definition host : Host :=
  {| Server.Math_pow := Math_pow;
     Server.Math_pow_NaN := fun _ => eq_refl;
     Server.numbro_format := numbro_format |}.

Definition address : value := VStr "0xd8da6bf26964af9d7eed9e03e53415d37aa96045".

Definition balances_url : string :=
  "https://api.sim.dune.com/v1/evm/balances/0xd8da6bf26964af9d7eed9e03e53415d37aa96045?metadata=url,logo&exclude_spam_tokens=true".
Definition activity_url : string :=
  "https://api.sim.dune.com/v1/evm/activity/0xd8da6bf26964af9d7eed9e03e53415d37aa96045?limit=25".
Definition collectibles_url : string :=
  "https://api.sim.dune.com/v1/evm/collectibles/0xd8da6bf26964af9d7eed9e03e53415d37aa96045?limit=50".

(** An API answering the three URLs of [address] as given, and failing
    at the network level on any other URL. *)
Definition serve (balances activity collectibles : fetched) : upstream :=
  fun url =>
    if String.eqb url balances_url then balances
    else if String.eqb url activity_url then activity
    else if String.eqb url collectibles_url then collectibles
    else Rejected (TypeError "fetch failed").

Definition http_200 (body : value) : fetched :=
  Resolved {| status := 200; statusText := "OK"; json := Normal body |}.

Definition http_500 : fetched :=
  Resolved {| status := 500; statusText := "Internal Server Error";
              json := Throw (SyntaxError "Unexpected token I in JSON at position 0") |}.

Definition token (symbol amount : string) (decimals : float) (value_usd : value) : value :=
  VObj (<["symbol" := VStr symbol]>
        (<["amount" := VStr amount]>
         (<["decimals" := VNum decimals]>
          (<["value_usd" := value_usd]> ∅)))).

Definition eth : value := token "ETH" "1234500000000000000" 18 (VNum 1234.5).
Definition spam : value := token "RTFKT" "1000000" 6 (VNum 99).
Definition odd : value := token "ODD" "abc" 18 VNull.

(** A token that already carries a field named like a derived one. *)
Definition preformatted : value :=
  VObj (<["amountFormatted" := VNum 7]> (own_enumerable eth)).

Definition balances_of (tokens : list value) : value :=
  VObj {[ "balances" := VArr tokens ]}.

Definition some_activity : value :=
  VObj {[ "activity" := VArr [VObj {[ "type" := VStr "receive" ]}] ]}.

Definition some_collectibles : value :=
  VObj {[ "collectibles" := VArr [VObj {[ "name" := VStr "Punk" ]}] ]}.

Definition get_wallet (tab : option value) : request :=
  {| query_walletAddress := Some address; query_tab := tab |}.

(** [GET /?walletAddress[toString]=x] under a query parser that builds
    nested objects and lets their keys shadow [Object.prototype]. *)
Definition shadowing_request : request :=
  {| query_walletAddress := Some (VObj {[ "toString" := VStr "x" ]});
     query_tab := None |}.

End Example.

(* ===================================================================== *)
(** * Terms of the statements                                             *)
(* ===================================================================== *)

Module Terms.
Import JS Server.

(** The exception of line 183 when [totalWalletUSDValue] is a string. *)
Definition toFixed_error : exn :=
  TypeError "totalWalletUSDValue.toFixed is not a function".

Definition starts_with_digit (s : string) : bool :=
  match s with
  | String c _ => is_digit c
  | EmptyString => false
  end.

(** The three URLs requested for an address that prints as [address]. *)
Definition balances_url (address : string) : string :=
  "https://api.sim.dune.com/v1/evm/balances/" +:+ address +:+ "?"
  +:+ "metadata=url,logo&exclude_spam_tokens=true".

Definition activity_url (address : string) : string :=
  "https://api.sim.dune.com/v1/evm/activity/" +:+ address +:+ "?limit=" +:+ "25".

Definition collectibles_url (address : string) : string :=
  "https://api.sim.dune.com/v1/evm/collectibles/" +:+ address +:+ "?limit=" +:+ "50".

(** What the [try] block of a fetcher makes of a settled request,
    [parse] being what it does with the parsed body: any [Throw] is a
    failure of the call (network error, status outside 200-299, body
    that is not JSON, payload that [parse] cannot handle). *)
Definition settle {A} (parse : value -> completion A) (f : fetched) : completion A :=
  match f with
  | Rejected e => Throw e
  | Resolved r => if ok r then json r ≫= parse else Throw (Error (statusText r))
  end.

Definition or_else {A} (c : completion A) (a : A) : A :=
  match c with
  | Normal x => x
  | Throw _ => a
  end.

(** The tokens of a parsed body, in the order of the response. *)
Definition upstream_tokens (data : value) : list value :=
  match get data "balances" with
  | Normal (VArr toks) => toks
  | _ => []
  end.

(** [tok.symbol === 'RTFKT'] on a token of the response. *)
Definition upstream_spam (tok : value) : bool :=
  match get tok "symbol" with
  | Normal v => strict_equals_string v "RTFKT"
  | Throw _ => false
  end.

(** The USD value of a record, a non-numeric one counting as 0. *)
Definition usd_or_zero (rec : gmap string value) : float :=
  match parseFloat (value_usd rec) with
  | Normal v => if PrimFloat.is_nan v then 0%float else v
  | Throw _ => 0%float
  end.

(** The sum, in order, of the USD values of the records. *)
Definition portfolio_total (tokens : list (gmap string value)) : float :=
  fold_left (fun sum rec => PrimFloat.add sum (usd_or_zero rec)) tokens 0%float.

Definition numeric_value_usd (rec : gmap string value) : Prop :=
  exists usd, parseFloat (value_usd rec) = Normal usd.

(** The view model of a wallet without data. *)
Definition empty_view (walletAddress tab : value) : View.t :=
  {| View.walletAddress := walletAddress;
     View.currentTab := tab;
     View.totalWalletUSDValue := "$0.00";
     View.tokens := [];
     View.activities := VArr [];
     View.collectibles := VArr [];
     View.errorMessage := VNull |}.

Section WithHost.
Context {host : Host}.

(** [rec] is the record that the [map] callback builds for [tok]. *)
Definition derived (tok : value) (rec : gmap string value) : Prop :=
  exists amount usd_value usd,
    numericAmount tok = Normal amount /\
    get tok "value_usd" = Normal usd_value /\
    parseFloat usd_value = Normal usd /\
    rec = <["amountFormatted" := VStr (numbro_format "0,0.[00]A" (SNum amount))]>
          (<["valueUSDFormatted" := VStr (numbro_format "$0,0.00" (SNum usd))]>
           (own_enumerable tok)).

(** The view model of a wallet with tokens. *)
Definition wallet_view (walletAddress tab : value)
    (tokens : list (gmap string value)) (activities collectibles : value) : View.t :=
  {| View.walletAddress := walletAddress;
     View.currentTab := tab;
     View.totalWalletUSDValue := "$" +:+ toFixed 2 (portfolio_total tokens);
     View.tokens := tokens;
     View.activities := activities;
     View.collectibles := collectibles;
     View.errorMessage := VNull |}.

(** The join of lines 161-165. *)
Definition joined (api : upstream) (walletAddress : value)
  : run (list (gmap string value) * value * value) :=
  Promise_all3 (getWalletBalances api walletAddress)
               (getWalletActivity api walletAddress (Some (VNum 25%float)))
               (getWalletCollectibles api walletAddress (Some (VNum 50%float))).

End WithHost.
End Terms.

(* ===================================================================== *)
(** * The earlier handler of server.js                                    *)
(* ===================================================================== *)

Module Earlier.
Import JS Server.

Section Handler.
Context {host : Host}.

(** Lines 269-298, the route handler of the second copy of the server
    in the file: it fetches the balances only (its [getWalletBalances],
    lines 223-266, is the one of lines 29-76 word for word), renders the
    constant total [$0.00] and no activity and no collectible.  The
    variables of lines 275 and 277 are [tokens] and [errorMessage]; the
    [try] assigns the first, the [catch] the second. *)
Definition handler (api : upstream) (req : request) : run View.t :=
  let walletAddress := default (VStr "") (query_walletAddress req) in
  let tab := default (VStr "tokens") (query_tab req) in
  state ← (if truthy walletAddress then
            try_catch
              (tokens ← getWalletBalances api walletAddress; mret (tokens, VNull))
              (fun error =>
                 mret ([], VStr "Failed to fetch wallet data. Please try again."))
          else mret ([], VNull));
  let '(tokens, errorMessage) := state in
  mret {| View.walletAddress := walletAddress;
          View.currentTab := tab;
          View.totalWalletUSDValue := "$0.00";
          View.tokens := tokens;
          View.activities := VArr [];
          View.collectibles := VArr [];
          View.errorMessage := errorMessage |}.

End Handler.
End Earlier.

(* ===================================================================== *)
(** * Further terms                                                       *)
(* ===================================================================== *)

Module Shapes.
Import JS Server Terms.

(** The URLs of the activity and collectibles requests for a limit that
    prints as [limit_text]. *)
Definition activity_url_limit (address limit_text : string) : string :=
  "https://api.sim.dune.com/v1/evm/activity/" +:+ address +:+ "?limit=" +:+ limit_text.

Definition collectibles_url_limit (address limit_text : string) : string :=
  "https://api.sim.dune.com/v1/evm/collectibles/" +:+ address +:+ "?limit=" +:+ limit_text.

Fixpoint all_digits (s : string) : bool :=
  match s with
  | String c rest => is_digit c && all_digits rest
  | EmptyString => true
  end.

(** An optional minus sign, one digit at least, a point, two digits. *)
Definition two_decimal_numeral (s : string) : Prop :=
  exists sign int frac,
    s = sign +:+ int +:+ "." +:+ frac
    /\ (sign = "" \/ sign = "-")
    /\ all_digits int = true /\ int <> ""
    /\ all_digits frac = true /\ String.length frac = 2%nat.

(** [parseFloat(tok.value_usd)] on a token of the response, NaN counting
    as 0. *)
Definition upstream_usd_or_zero (tok : value) : float :=
  match get tok "value_usd" ≫= parseFloat with
  | Normal v => if PrimFloat.is_nan v then 0%float else v
  | Throw _ => 0%float
  end.

End Shapes.

(* ===================================================================== *)
(** * Facts about the embedding                                           *)
(* ===================================================================== *)

Module Facts.
Import JS Server Terms.

(** ** Numbers *)

Section Numbers.

Lemma SFeqb_irrefl s : SFeqb s s = false -> s = S754_nan.
Proof.
  destruct s as [b|b| |b m e]; try done.
  - by destruct b.
  - unfold SFeqb, SFcompare.
    rewrite Z.compare_refl, Pos.compare_cont_refl. by destruct b.
Qed.

Lemma is_nan_eq x : PrimFloat.is_nan x = true -> x = PrimFloat.nan.
Proof.
  unfold PrimFloat.is_nan. rewrite FloatAxioms.eqb_spec. intros H.
  apply Prim2SF_inj. apply negb_true_iff in H.
  apply SFeqb_irrefl in H. by rewrite H.
Qed.

Lemma div_nan_l y : PrimFloat.div PrimFloat.nan y = PrimFloat.nan.
Proof. apply Prim2SF_inj. by rewrite div_spec. Qed.

Lemma div_nan_r x : PrimFloat.div x PrimFloat.nan = PrimFloat.nan.
Proof.
  apply Prim2SF_inj. rewrite div_spec.
  change (Prim2SF PrimFloat.nan) with S754_nan.
  unfold SF64div, SFdiv. by destruct (Prim2SF x).
Qed.

Lemma nan_not_zero : PrimFloat.nan <> 0%float.
Proof. intros H. apply (f_equal PrimFloat.is_nan) in H. discriminate H. Qed.

Lemma toFixed_zero : toFixed 2 0%float = "0.00".
Proof. vm_compute. reflexivity. Qed.

Lemma ToString_25 : ToString (VNum 25%float) = Normal "25".
Proof. vm_compute. reflexivity. Qed.

Lemma ToString_50 : ToString (VNum 50%float) = Normal "50".
Proof. vm_compute. reflexivity. Qed.

End Numbers.

(** ** Property names and spread *)

Section Values.

Lemma is_digit_digit_char d : 0 <= d < 10 -> is_digit (digit_char d) = true.
Proof.
  intros Hd. unfold is_digit, digit_char.
  rewrite nat_ascii_embedding by lia.
  apply andb_true_iff. split; apply Nat.leb_le; lia.
Qed.

Lemma digits_go_starts_with_digit fuel n acc :
  starts_with_digit acc = true ->
  starts_with_digit (digits_go fuel n acc) = true.
Proof.
  revert n acc. induction fuel as [|fuel IH]; intros n acc Hacc; [done|].
  cbn [digits_go].
  assert (starts_with_digit (String (digit_char (n mod 10)) acc) = true) as H.
  { apply is_digit_digit_char. apply Z.mod_pos_bound. lia. }
  destruct (n <? 10); [exact H | by apply IH].
Qed.

Lemma index_key_starts_with_digit i : starts_with_digit (index_key i) = true.
Proof.
  unfold index_key, digits. cbn [digits_go].
  assert (starts_with_digit
            (String (digit_char (Z.of_nat i mod 10)) "") = true) as H.
  { apply is_digit_digit_char. apply Z.mod_pos_bound. lia. }
  destruct (Z.of_nat i <? 10); [exact H | by apply digits_go_starts_with_digit].
Qed.

Lemma lookup_indexed {A} (f : nat -> A -> value) (l : list A) name :
  starts_with_digit name = false ->
  (list_to_map (imap (fun i x => (index_key i, f i x)) l) : gmap string value)
    !! name = None.
Proof.
  intros Hname. apply not_elem_of_list_to_map_1.
  intros Hin. apply list_elem_of_fmap in Hin as [[k v] [-> Hin]].
  apply elem_of_lookup_imap in Hin as (i & x & Heq & _).
  injection Heq as -> _. cbn [fst] in Hname.
  by rewrite index_key_starts_with_digit in Hname.
Qed.

(** Reading a property whose name is not an index gives the same on a
    value and on the copy that spread makes of it. *)
Lemma get_own_enumerable v name x :
  starts_with_digit name = false ->
  get v name = Normal x ->
  default VUndefined (own_enumerable v !! name) = x.
Proof.
  intros Hname Hget. destruct v as [| |b|y|s|l|o]; cbn in Hget; try done;
    injection Hget as <-; cbn [own_enumerable]; try done.
  - by rewrite (lookup_indexed (fun _ c => VStr (String c ""))).
  - by rewrite (lookup_indexed (fun _ x => x)).
Qed.

Lemma get_defined v name1 name2 x :
  get v name1 = Normal x -> exists y, get v name2 = Normal y.
Proof. destruct v; cbn; try done; eauto. Qed.

End Values.

(** ** The fetchers *)

Ltac run_fetch :=
  repeat (progress
    (unfold mbind, mret, completion_bind, completion_ret, run_bind, run_ret,
       try_catch, fetch, lift, throw, settle, or_else;
     cbn -[format_balances field_or_empty String.append])).

Section Fetchers.
Context {host : Host}.

Lemma getWalletBalances_falsy api w :
  truthy w = false -> getWalletBalances api w = Run (Normal []) [].
Proof. intros H. unfold getWalletBalances. by rewrite H. Qed.

Lemma getWalletBalances_throws api w e :
  truthy w = true ->
  ToString w = Throw e ->
  getWalletBalances api w = Run (Throw e) [].
Proof. intros Hw Haddr. unfold getWalletBalances. by rewrite Hw, Haddr. Qed.

Lemma getWalletBalances_unfold api w address :
  truthy w = true ->
  ToString w = Normal address ->
  getWalletBalances api w =
  Run (Normal (or_else (settle format_balances (api (balances_url address))) []))
      [balances_url address].
Proof.
  intros Hw Haddr. unfold getWalletBalances, balances_url. rewrite Hw, Haddr.
  unfold mbind at 1, run_bind at 1, lift at 1. cbn [outcome requests negb app].
  match goal with |- context [fetch api ?u] => generalize u end. intros url.
  run_fetch. destruct (api url) as [e|r]; run_fetch; [done|].
  destruct (ok r); run_fetch; [|done].
  destruct (json r) as [data|e]; run_fetch; [|done].
  by destruct (format_balances data).
Qed.

Lemma getWalletActivity_throws api w limit e :
  truthy w = true ->
  ToString w = Throw e ->
  getWalletActivity api w limit = Run (Throw e) [].
Proof. intros Hw Haddr. unfold getWalletActivity. by rewrite Hw, Haddr. Qed.

Lemma getWalletActivity_unfold api w address :
  truthy w = true ->
  ToString w = Normal address ->
  getWalletActivity api w (Some (VNum 25%float)) =
  Run (Normal (or_else (settle (fun data => field_or_empty data "activity")
                               (api (activity_url address)))
                       (VArr [])))
      [activity_url address].
Proof.
  intros Hw Haddr. unfold getWalletActivity, activity_url.
  cbn [default_parameter]. rewrite Hw, Haddr.
  unfold mbind, run_bind, lift. cbn [outcome requests negb app].
  rewrite ToString_25. cbn [outcome requests negb app].
  match goal with |- context [fetch api ?u] => generalize u end. intros url.
  run_fetch. destruct (api url) as [e|r]; run_fetch; [done|].
  destruct (ok r); run_fetch; [|done].
  destruct (json r) as [data|e]; run_fetch; [|done].
  by destruct (field_or_empty data "activity").
Qed.

Lemma getWalletCollectibles_throws api w limit e :
  truthy w = true ->
  ToString w = Throw e ->
  getWalletCollectibles api w limit = Run (Throw e) [].
Proof. intros Hw Haddr. unfold getWalletCollectibles. by rewrite Hw, Haddr. Qed.

Lemma getWalletCollectibles_unfold api w address :
  truthy w = true ->
  ToString w = Normal address ->
  getWalletCollectibles api w (Some (VNum 50%float)) =
  Run (Normal (or_else (settle (fun data => field_or_empty data "collectibles")
                               (api (collectibles_url address)))
                       (VArr [])))
      [collectibles_url address].
Proof.
  intros Hw Haddr. unfold getWalletCollectibles, collectibles_url.
  cbn [default_parameter]. rewrite Hw, Haddr.
  unfold mbind, run_bind, lift. cbn [outcome requests negb app].
  rewrite ToString_50. cbn [outcome requests negb app].
  match goal with |- context [fetch api ?u] => generalize u end. intros url.
  run_fetch. destruct (api url) as [e|r]; run_fetch; [done|].
  destruct (ok r); run_fetch; [|done].
  destruct (json r) as [data|e]; run_fetch; [|done].
  by destruct (field_or_empty data "collectibles").
Qed.

(** A failed balances call yields the empty array: nothing is thrown,
    and the one request has been sent. *)
Lemma getWalletBalances_failure api w address e :
  truthy w = true ->
  ToString w = Normal address ->
  settle format_balances (api (balances_url address)) = Throw e ->
  getWalletBalances api w = Run (Normal []) [balances_url address].
Proof.
  intros Hw Haddr Hfail.
  by rewrite (getWalletBalances_unfold api w address Hw Haddr), Hfail.
Qed.

(** *** The records of getWalletBalances *)

Lemma mapM_cons {A B} (f : A -> completion B) x l :
  mapM f (x :: l) = (y ← f x; k ← mapM f l; mret (y :: k)).
Proof. reflexivity. Qed.

Lemma mapM_normal {A B} (f : A -> completion B) l l' :
  mapM f l = Normal l' <-> Forall2 (fun x y => f x = Normal y) l l'.
Proof.
  revert l'. induction l as [|x l IH]; intros l'.
  - split; [intros [= <-]; constructor | by inversion 1].
  - rewrite mapM_cons. split.
    + destruct (f x) as [y|e] eqn:Hx; [|done].
      destruct (mapM f l) as [k|e] eqn:Hl; [|done].
      intros [= <-]. constructor; [done | by apply IH].
    + inversion 1 as [|? y ? k Hx Hl]; subst. rewrite Hx.
      apply IH in Hl. by rewrite Hl.
Qed.

Lemma format_token_derived tok rec :
  format_token tok = Normal rec <-> derived tok rec.
Proof.
  unfold format_token, derived. split.
  - destruct (numericAmount tok) as [amount|e]; [|done].
    destruct (get tok "value_usd") as [usd_value|e]; [|done].
    destruct (parseFloat usd_value) as [usd|e] eqn:Husd; cbn; rewrite Husd; [|done].
    intros [= <-]. by exists amount, usd_value, usd.
  - intros (amount & usd_value & usd & -> & -> & Husd & ->). cbn.
    by rewrite Husd.
Qed.

Lemma derived_lookup tok rec name :
  derived tok rec ->
  name <> "valueUSDFormatted" -> name <> "amountFormatted" ->
  rec !! name = own_enumerable tok !! name.
Proof.
  intros (amount & usd_value & usd & _ & _ & _ & ->) H1 H2.
  by rewrite !lookup_insert_ne.
Qed.

Lemma derived_get tok rec name x :
  derived tok rec ->
  starts_with_digit name = false ->
  name <> "valueUSDFormatted" -> name <> "amountFormatted" ->
  get tok name = Normal x ->
  default VUndefined (rec !! name) = x.
Proof.
  intros Hd Hname H1 H2 Hget.
  rewrite (derived_lookup tok rec name Hd H1 H2).
  by apply get_own_enumerable.
Qed.

Lemma derived_symbol tok rec :
  derived tok rec -> get tok "symbol" = Normal (symbol rec).
Proof.
  intros Hd. pose proof Hd as (_ & usd_value & _ & _ & Hget & _).
  destruct (get_defined tok "value_usd" "symbol" _ Hget) as [x Hx].
  rewrite Hx. f_equal. symmetry. by apply (derived_get tok rec "symbol").
Qed.

Lemma derived_spam tok rec :
  derived tok rec -> not_spam rec = negb (upstream_spam tok).
Proof.
  intros Hd. unfold not_spam, upstream_spam.
  by rewrite (derived_symbol tok rec Hd).
Qed.

Lemma derived_value_usd tok rec :
  derived tok rec -> numeric_value_usd rec.
Proof.
  intros Hd. pose proof Hd as (_ & usd_value & usd & _ & Hget & Husd & _).
  exists usd. unfold value_usd.
  by rewrite (derived_get tok rec "value_usd" usd_value Hd).
Qed.

Lemma format_balances_normal data result :
  format_balances data = Normal result ->
  exists formatted,
    Forall2 derived (upstream_tokens data) formatted /\
    result = filter (fun rec => Is_true (not_spam rec)) formatted.
Proof.
  unfold format_balances, upstream_tokens.
  destruct (get data "balances") as [b|e]; [|done].
  change (Normal b ≫= ?k) with (k b). cbv beta.
  assert (forall l : list (gmap string value),
            (formatted ← mapM format_token [];
             Normal (filter (fun rec => Is_true (not_spam rec)) formatted)) = Normal l ->
            exists formatted, Forall2 derived [] formatted /\
              l = filter (fun rec => Is_true (not_spam rec)) formatted) as Hnil.
  { intros l [= <-]. exists []. split; [constructor | done]. }
  destruct b as [| |b|x|s|toks|o]; cbn [truthy]; try apply Hnil; try done.
  - destruct b; [done | apply Hnil].
  - destruct (negb _); [done | apply Hnil].
  - destruct (negb _); [done | apply Hnil].
  - destruct (mapM format_token toks) as [formatted|e] eqn:Hmap; [|done].
    intros [= <-]. exists formatted. split; [|done].
    apply mapM_normal in Hmap.
    eapply Forall2_impl; [exact Hmap|]. intros tok rec. apply format_token_derived.
Qed.

Lemma Forall2_filter {A B} (R : A -> B -> Prop) (P : A -> bool) (Q : B -> bool) l k :
  (forall x y, R x y -> P x = Q y) ->
  Forall2 R l k ->
  Forall2 R (filter (fun x => Is_true (P x)) l) (filter (fun y => Is_true (Q y)) k).
Proof.
  intros HPQ. induction 1 as [|x y l k HR _ IH]; [constructor|].
  rewrite !filter_cons. rewrite (HPQ x y HR).
  destruct (decide (Is_true (Q y))); [by constructor | done].
Qed.

(** The records returned are, in the order of the response, those
    derived from its tokens whose symbol is not the spam one. *)
Lemma format_balances_retained data result :
  format_balances data = Normal result ->
  Forall2 derived
    (filter (fun tok => Is_true (negb (upstream_spam tok))) (upstream_tokens data))
    result.
Proof.
  intros (formatted & Hall & ->)%format_balances_normal.
  apply Forall2_filter; [|done].
  intros tok rec Hd. symmetry. by apply derived_spam.
Qed.

Lemma getWalletBalances_result api w result :
  outcome (getWalletBalances api w) = Normal result ->
  result = [] \/ exists data, format_balances data = Normal result.
Proof.
  destruct (truthy w) eqn:Hw.
  - destruct (ToString w) as [address|e] eqn:Haddr.
    + rewrite (getWalletBalances_unfold api w address Hw Haddr).
      cbn [outcome]. intros [= <-].
      destruct (api (balances_url address)) as [e|r]; cbn; [by left|].
      destruct (ok r); cbn; [|by left].
      destruct (json r) as [data|e]; cbn; [|by left].
      destruct (format_balances data) as [l|e] eqn:Hl; cbn; [|by left].
      right. by exists data.
    + by rewrite (getWalletBalances_throws api w e Hw Haddr).
  - rewrite (getWalletBalances_falsy api w Hw). intros [= <-]. by left.
Qed.

Lemma getWalletBalances_values api w result :
  outcome (getWalletBalances api w) = Normal result ->
  Forall numeric_value_usd result.
Proof.
  intros [->|[data Hdata]]%getWalletBalances_result; [constructor|].
  apply format_balances_retained in Hdata.
  induction Hdata as [|tok rec toks recs Hd _ IH]; constructor; [|done].
  by apply (derived_value_usd tok).
Qed.

End Fetchers.

(** ** The route handler *)

Ltac run_stmt :=
  repeat (progress
    (unfold mbind, mret, stmt_bind, stmt_ret, completion_bind, completion_ret,
       run_bind, run_ret, try_stmt, expr, assign, await, on_error,
       sum_after_fetch, view_of, call_toFixed;
     cbn -[reduce_value_usd toFixed numbro_format])).

Section Handler.
Context {host : Host}.

Lemma sum_before_fetch_no_token st :
  tokens st = [] -> sum_before_fetch st = Step (Normal tt) st [].
Proof. intros H. unfold sum_before_fetch. by rewrite H. Qed.

Lemma before_fetch_initial :
  before_fetch initial =
  Step (Normal tt)
       (set_totalWalletUSDValue (SStr (numbro_format "$0,0.00" (SNum 0%float))) initial)
       [].
Proof. reflexivity. Qed.

Lemma reduce_value_usd_sum tokens sum :
  Forall numeric_value_usd tokens ->
  reduce_value_usd tokens sum =
  Normal (fold_left (fun sum rec => PrimFloat.add sum (usd_or_zero rec)) tokens sum).
Proof.
  intros Hall. revert sum. induction Hall as [|rec tokens [usd Husd] _ IH]; intros sum.
  - reflexivity.
  - cbn [reduce_value_usd fold_left]. unfold usd_or_zero at 2.
    rewrite Husd. apply IH.
Qed.

Lemma Promise_all3_normal {A B C} (a : run A) (b : run B) (c : run C) x y z :
  outcome (Promise_all3 a b c) = Normal (x, y, z) <->
  outcome a = Normal x /\ outcome b = Normal y /\ outcome c = Normal z.
Proof.
  unfold Promise_all3. cbn [outcome].
  destruct (outcome a), (outcome b), (outcome c); cbn;
    (split; [intros [= -> -> ->] | intros (Ha & Hb & Hc)]); by simplify_eq.
Qed.

(** The handler in one piece: what it renders, or that it throws, and
    what it has requested. *)
Lemma handler_unfold api req :
  let walletAddress := default (VStr "") (query_walletAddress req) in
  let tab := default (VStr "tokens") (query_tab req) in
  handler api req =
  if truthy walletAddress then
    Run (match outcome (joined api walletAddress) with
         | Normal (t :: ts, a, c) =>
             match reduce_value_usd (t :: ts) 0%float with
             | Normal total =>
                 Normal {| View.walletAddress := walletAddress;
                           View.currentTab := tab;
                           View.totalWalletUSDValue := "$" +:+ toFixed 2 total;
                           View.tokens := t :: ts;
                           View.activities := a;
                           View.collectibles := c;
                           View.errorMessage := VNull |}
             | Throw _ => Throw toFixed_error
             end
         | _ => Throw toFixed_error
         end)
        (requests (joined api walletAddress))
  else Run (Normal (empty_view walletAddress tab)) [].
Proof.
  intros w tab. unfold handler. fold w tab.
  unfold respond. destruct (truthy w); [|reflexivity].
  unfold fetch_wallet, fetch_and_sum, fetch_all. fold (joined api w).
  generalize (joined api w). intros j.
  destruct j as [[[[t a] c]|e] reqs];
    unfold try_stmt at 1 2 3, mbind at 1 2 3, stmt_bind at 1 2 3;
    rewrite before_fetch_initial.
  - destruct t as [|t ts].
    + run_stmt. by rewrite ?app_nil_r.
    + run_stmt.
      destruct (reduce_value_usd (t :: ts) 0%float) as [total|e];
        run_stmt; by rewrite ?app_nil_r.
  - run_stmt. by rewrite ?app_nil_r.
Qed.

Section Request.
Variables (api : upstream) (req : request).

Let walletAddress : value := default (VStr "") (query_walletAddress req).
Let tab : value := default (VStr "tokens") (query_tab req).

Lemma handler_falsy :
  truthy walletAddress = false ->
  handler api req = Run (Normal (empty_view walletAddress tab)) [].
Proof.
  intros Hw. rewrite handler_unfold. fold walletAddress tab. by rewrite Hw.
Qed.

Lemma handler_renders t ts a c :
  truthy walletAddress = true ->
  outcome (joined api walletAddress) = Normal (t :: ts, a, c) ->
  handler api req =
  Run (Normal (wallet_view walletAddress tab (t :: ts) a c))
      (requests (joined api walletAddress)).
Proof.
  intros Hw Hj. rewrite handler_unfold. fold walletAddress tab.
  rewrite Hw, Hj.
  apply Promise_all3_normal in Hj as (Hb & _ & _).
  apply getWalletBalances_values in Hb.
  by rewrite (reduce_value_usd_sum _ _ Hb).
Qed.

(** Without a token to sum, line 183 calls [toFixed] on the string that
    line 159 stored. *)
Lemma handler_no_token a c :
  truthy walletAddress = true ->
  outcome (joined api walletAddress) = Normal ([], a, c) ->
  handler api req = Run (Throw toFixed_error) (requests (joined api walletAddress)).
Proof.
  intros Hw Hj. rewrite handler_unfold. fold walletAddress tab.
  by rewrite Hw, Hj.
Qed.

(** So it does after the [catch] of line 174. *)
Lemma handler_rejected e :
  truthy walletAddress = true ->
  outcome (joined api walletAddress) = Throw e ->
  handler api req = Run (Throw toFixed_error) (requests (joined api walletAddress)).
Proof.
  intros Hw Hj. rewrite handler_unfold. fold walletAddress tab.
  by rewrite Hw, Hj.
Qed.

(** Whenever the handler renders for a wallet address, it renders the
    fetched tokens, of which there is one at least, and the total of
    their USD values. *)
Lemma handler_rendered vm :
  truthy walletAddress = true ->
  outcome (handler api req) = Normal vm ->
  exists t ts a c,
    outcome (joined api walletAddress) = Normal (t :: ts, a, c) /\
    vm = wallet_view walletAddress tab (t :: ts) a c.
Proof.
  intros Hw Hvm.
  destruct (outcome (joined api walletAddress)) as [[[[|t ts] a] c]|e] eqn:Hj.
  - by rewrite (handler_no_token a c Hw Hj) in Hvm.
  - rewrite (handler_renders t ts a c Hw Hj) in Hvm.
    injection Hvm as <-. by exists t, ts, a, c.
  - by rewrite (handler_rejected e Hw Hj) in Hvm.
Qed.

(** The message that the [catch] of line 174 sets is never rendered. *)
Lemma error_message_never_rendered vm :
  outcome (handler api req) = Normal vm -> View.errorMessage vm = VNull.
Proof.
  intros Hvm. destruct (truthy walletAddress) eqn:Hw.
  - by apply handler_rendered in Hvm as (t & ts & a & c & _ & ->).
  - rewrite (handler_falsy Hw) in Hvm. by injection Hvm as <-.
Qed.

(** A failed balances call stops the page. *)
Lemma handler_balances_failure address e :
  truthy walletAddress = true ->
  ToString walletAddress = Normal address ->
  settle format_balances (api (balances_url address)) = Throw e ->
  handler api req =
  Run (Throw toFixed_error)
      [balances_url address; activity_url address; collectibles_url address].
Proof.
  intros Hw Haddr Hfail.
  assert (joined api walletAddress =
          Run (Normal ([],
                 or_else (settle (fun data => field_or_empty data "activity")
                                 (api (activity_url address))) (VArr []),
                 or_else (settle (fun data => field_or_empty data "collectibles")
                                 (api (collectibles_url address))) (VArr [])))
              [balances_url address; activity_url address; collectibles_url address])
    as Hj.
  { unfold joined.
    rewrite (getWalletBalances_failure api _ address e Hw Haddr Hfail).
    rewrite (getWalletActivity_unfold api _ address Hw Haddr).
    by rewrite (getWalletCollectibles_unfold api _ address Hw Haddr). }
  rewrite (handler_no_token _ _ Hw (f_equal outcome Hj)). by rewrite Hj.
Qed.

(** A failed activity call leaves the tokens and the collectibles in
    the page, provided there is a token. *)
Lemma handler_activity_failure address t ts e :
  truthy walletAddress = true ->
  ToString walletAddress = Normal address ->
  outcome (getWalletBalances api walletAddress) = Normal (t :: ts) ->
  settle (fun data => field_or_empty data "activity") (api (activity_url address))
    = Throw e ->
  handler api req =
  Run (Normal (wallet_view walletAddress tab (t :: ts) (VArr [])
                 (or_else (settle (fun data => field_or_empty data "collectibles")
                                  (api (collectibles_url address))) (VArr []))))
      [balances_url address; activity_url address; collectibles_url address].
Proof.
  intros Hw Haddr Hb Hfail.
  pose proof (getWalletBalances_unfold api _ address Hw Haddr) as Hbal.
  pose proof (getWalletActivity_unfold api _ address Hw Haddr) as Hact.
  pose proof (getWalletCollectibles_unfold api _ address Hw Haddr) as Hcol.
  rewrite Hfail in Hact. cbn [or_else] in Hact.
  rewrite Hbal in Hb. cbn [outcome] in Hb. injection Hb as Hb. rewrite Hb in Hbal.
  assert (joined api walletAddress =
          Run (Normal (t :: ts, VArr [],
                 or_else (settle (fun data => field_or_empty data "collectibles")
                                 (api (collectibles_url address))) (VArr [])))
              [balances_url address; activity_url address; collectibles_url address])
    as Hj.
  { unfold joined. by rewrite Hbal, Hact, Hcol. }
  rewrite (handler_renders _ _ _ _ Hw (f_equal outcome Hj)). by rewrite Hj.
Qed.

End Request.

Lemma handler_without_loop_eq api req :
  handler api req = handler_without_loop api req.
Proof.
  unfold handler, handler_without_loop, respond.
  destruct (truthy _); [|reflexivity].
  unfold fetch_wallet, fetch_wallet_without_loop, before_fetch, try_stmt.
  unfold mbind at 1 2 3 4 5 6 7 8 9 10 11 12, stmt_bind at 1 2 3 4 5 6 7 8 9 10 11 12.
  by rewrite (sum_before_fetch_no_token initial eq_refl).
Qed.

End Handler.
End Facts.

(* ===================================================================== *)
(** * The properties of the specification                                 *)
(* ===================================================================== *)

Import JS Server Terms Facts.

(** ** Failure of the balances call *)

(** C1.  With the balances endpoint answering HTTP 500 (the other two
    answering normally), [getWalletBalances] returns the empty array and
    has sent its one request, as the specification says; but the route
    handler does not render: line 159 has left the string that numbro
    made in [totalWalletUSDValue], no token is there for line 169 to
    replace it by a number, and [totalWalletUSDValue.toFixed(2)] on line
    183 throws a TypeError outside every [try]. *)
Theorem balances_http_500_page_fails :
  let api := Example.serve Example.http_500
               (Example.http_200 Example.some_activity)
               (Example.http_200 Example.some_collectibles) in
  getWalletBalances (host := Example.host) api Example.address
    = Run (Normal []) [Example.balances_url]
  /\ handler (host := Example.host) api (Example.get_wallet None)
    = Run (Throw toFixed_error)
          [Example.balances_url; Example.activity_url; Example.collectibles_url].
Proof. vm_compute. split; reflexivity. Qed.

(** ** The portfolio total *)

(** C2.  A wallet whose one token is worth 1234.5 USD is rendered with
    the total [$1234.50]: two decimals and the currency symbol, but not
    the thousands separator of [$1,234.50]. *)
Theorem total_1234_5_has_no_separator :
  let api := Example.serve (Example.http_200 (Example.balances_of [Example.eth]))
               (Example.http_200 Example.some_activity)
               (Example.http_200 Example.some_collectibles) in
  let vm := or_else (outcome (handler (host := Example.host) api (Example.get_wallet None)))
                    (empty_view VNull VNull) in
  outcome (handler (host := Example.host) api (Example.get_wallet None)) = Normal vm
  /\ View.totalWalletUSDValue vm = "$1234.50"
  /\ View.totalWalletUSDValue vm <> "$1,234.50".
Proof.
  intros api vm.
  assert (View.totalWalletUSDValue vm = "$1234.50") as E by (vm_compute; reflexivity).
  split; [vm_compute; reflexivity|]. split; [exact E|].
  rewrite E. discriminate.
Qed.

(** ** Failure of the orchestration *)

(** C3.  A wallet address that cannot be turned into a string makes each
    fetcher throw while it builds its URL, before its own [try]: the
    join rejects, the [catch] of line 174 sets the error message, and
    the three sequences are still empty.  The total is the string of
    line 159, though, not zero, and the handler throws on line 183
    instead of rendering the message. *)
Theorem orchestration_failure_page_fails :
  let api := Example.serve Example.http_500 Example.http_500 Example.http_500 in
  let w := default (VStr "") (query_walletAddress Example.shadowing_request) in
  let s := fetch_wallet (host := Example.host) api w initial in
  outcome (joined (host := Example.host) api w)
  = Throw (TypeError "Cannot convert object to primitive value")
  /\ result s = Normal tt
  /\ errorMessage (vars s) = VStr "Failed to fetch wallet data. Please try again."
  /\ tokens (vars s) = []
  /\ activities (vars s) = VArr []
  /\ collectibles (vars s) = VArr []
  /\ totalWalletUSDValue (vars s)
     = SStr (numbro_format (Host := Example.host) "$0,0.00" (SNum 0%float))
  /\ handler (host := Example.host) api Example.shadowing_request
     = Run (Throw toFixed_error) [].
Proof. vm_compute. repeat split; reflexivity. Qed.

(** ** The derived amount *)

(** C4, as stated, fails: a token whose amount is the string ["abc"] has
    the derived amount NaN, which is not 0. *)
Lemma non_numeric_amount_is_not_zero :
  numericAmount (host := Example.host) Example.odd = Normal PrimFloat.nan
  /\ numericAmount (host := Example.host) Example.odd <> Normal 0%float.
Proof.
  assert (numericAmount (host := Example.host) Example.odd = Normal PrimFloat.nan) as E
    by (vm_compute; reflexivity).
  split; [exact E|]. rewrite E. intros H. apply nan_not_zero. congruence.
Qed.

(** C4 (amended).  For a token whose amount is the string [a] and whose
    decimals [d] print as [ds], the derived amount is
    [parseFloat(a) / Math.pow(10, parseInt(d))] in binary64 arithmetic,
    and it is what [amountFormatted] is made of; no exception is raised;
    when [a] or [d] is not numeric the derived amount is NaN. *)
Theorem numericAmount_quotient_or_NaN {host : Host}
    (tok : value) (a : string) (d : value) (ds : string) :
  get tok "amount" = Normal (VStr a) ->
  get tok "decimals" = Normal d ->
  ToString d = Normal ds ->
  let quotient :=
    PrimFloat.div (parseFloat_string a) (Math_pow 10%float (parseInt_string ds)) in
  numericAmount tok = Normal quotient
  /\ (forall rec, format_token tok = Normal rec ->
        rec !! "amountFormatted"
        = Some (VStr (numbro_format "0,0.[00]A" (SNum quotient))))
  /\ (PrimFloat.is_nan (parseFloat_string a) = true
      \/ PrimFloat.is_nan (parseInt_string ds) = true ->
      quotient = PrimFloat.nan).
Proof.
  intros Ha Hd Hds quotient.
  assert (numericAmount tok = Normal quotient) as Hq.
  { unfold numericAmount. rewrite Ha. cbn. rewrite Hd. cbn.
    unfold parseInt. by rewrite Hds. }
  split; [exact Hq|]. split.
  - intros rec (amount & _ & usd & Hamount & _ & _ & ->)%format_token_derived.
    rewrite Hq in Hamount. injection Hamount as <-.
    by rewrite lookup_insert_eq.
  - unfold quotient. intros [->%is_nan_eq | ->%is_nan_eq].
    + apply div_nan_l.
    + rewrite Math_pow_NaN. apply div_nan_r.
Qed.

Lemma numericAmount_quotient_or_NaN_witness :
  numericAmount (host := Example.host) Example.eth
  = Normal (PrimFloat.div 1234500000000000000%float 1000000000000000000%float)
  /\ numericAmount (host := Example.host) Example.odd = Normal PrimFloat.nan.
Proof.
  split.
  - rewrite (proj1 (numericAmount_quotient_or_NaN (host := Example.host)
                      Example.eth "1234500000000000000" (VNum 18%float) "18"
                      ltac:(vm_compute; reflexivity) ltac:(vm_compute; reflexivity)
                      ltac:(vm_compute; reflexivity))).
    vm_compute. reflexivity.
  - rewrite (proj1 (numericAmount_quotient_or_NaN (host := Example.host)
                      Example.odd "abc" (VNum 18%float) "18"
                      ltac:(vm_compute; reflexivity) ltac:(vm_compute; reflexivity)
                      ltac:(vm_compute; reflexivity))).
    vm_compute. reflexivity.
Defined.

(** ** The spam symbol *)

(** C5.  No record returned by [getWalletBalances] has the symbol
    ['RTFKT']; and the record that the [map] callback builds for a token
    with that symbol, whatever its other fields, is not among the
    records returned. *)
Theorem spam_symbol_removed {host : Host} (api : upstream) (w : value)
    (result : list (gmap string value)) :
  outcome (getWalletBalances api w) = Normal result ->
  Forall (fun rec => symbol rec <> VStr "RTFKT") result
  /\ (forall tok rec,
        get tok "symbol" = Normal (VStr "RTFKT") ->
        format_token tok = Normal rec ->
        rec ∉ result).
Proof.
  intros Hres.
  assert (Forall (fun rec => symbol rec <> VStr "RTFKT") result) as Hall.
  { apply getWalletBalances_result in Hres as [->|[data Hdata]]; [constructor|].
    apply format_balances_normal in Hdata as (formatted & _ & ->).
    apply Forall_forall. intros rec [Hkeep _]%list_elem_of_filter Hsym.
    unfold not_spam in Hkeep. by rewrite Hsym in Hkeep. }
  split; [exact Hall|].
  intros tok rec Hsym Hrec%format_token_derived Hin.
  rewrite Forall_forall in Hall. apply (Hall rec Hin).
  apply derived_symbol in Hrec. rewrite Hsym in Hrec. by injection Hrec.
Qed.

Lemma spam_symbol_removed_witness :
  let api := Example.serve
               (Example.http_200 (Example.balances_of [Example.eth; Example.spam]))
               Example.http_500 Example.http_500 in
  let result :=
    or_else (outcome (getWalletBalances (host := Example.host) api Example.address)) [] in
  symbol <$> result = [VStr "ETH"]
  /\ Forall (fun rec => symbol rec <> VStr "RTFKT") result.
Proof.
  intros api result. split; [vm_compute; reflexivity|].
  refine (proj1 (spam_symbol_removed (host := Example.host) api Example.address result _)).
  vm_compute. reflexivity.
Defined.

(** ** Isolation of the three fetches *)

(** C6.  The activity endpoint fails, the balances endpoint answers with
    an empty list and the collectibles endpoint with one collectible:
    [getWalletCollectibles] has its data, yet no view model is rendered,
    for the reason given at C1. *)
Theorem activity_failure_page_fails :
  let api := Example.serve (Example.http_200 (Example.balances_of []))
               Example.http_500
               (Example.http_200 Example.some_collectibles) in
  outcome (getWalletBalances (host := Example.host) api Example.address) = Normal []
  /\ outcome (getWalletActivity api Example.address (Some (VNum 25%float)))
     = Normal (VArr [])
  /\ outcome (getWalletCollectibles api Example.address (Some (VNum 50%float)))
     = Normal (VArr [VObj {[ "name" := VStr "Punk" ]}])
  /\ outcome (handler (host := Example.host) api (Example.get_wallet None))
     = Throw toFixed_error.
Proof. vm_compute. repeat split; reflexivity. Qed.

(** ** No wallet address *)

(** C7.  When [walletAddress] is absent or empty, the view model has no
    token, no activity, no collectible, no error message and the total
    [$0.00], and no request is sent. *)
Theorem empty_address_renders_zero {host : Host} (api : upstream) (tab : option value) :
  handler api {| query_walletAddress := None; query_tab := tab |}
  = Run (Normal (empty_view (VStr "") (default (VStr "tokens") tab))) []
  /\ handler api {| query_walletAddress := Some (VStr ""); query_tab := tab |}
  = Run (Normal (empty_view (VStr "") (default (VStr "tokens") tab))) [].
Proof. split; by apply handler_falsy. Qed.

(** ** The tab *)

(** C8.  Whenever the handler renders, [currentTab] is the [tab]
    parameter of the query if there is one and ["tokens"] otherwise; and
    any value at all is passed on (here for a request without wallet
    address). *)
Theorem tab_passed_through {host : Host} (api : upstream) (req : request) (vm : View.t) :
  outcome (handler api req) = Normal vm ->
  View.currentTab vm = default (VStr "tokens") (query_tab req)
  /\ (forall t : value,
        handler api {| query_walletAddress := None; query_tab := Some t |}
        = Run (Normal (empty_view (VStr "") t)) []).
Proof.
  intros Hvm. split; [|intros t; by apply handler_falsy].
  destruct (truthy (default (VStr "") (query_walletAddress req))) eqn:Hw.
  - apply handler_rendered in Hvm as (t & ts & a & c & _ & ->); done.
  - rewrite (handler_falsy api req Hw) in Hvm. by injection Hvm as <-.
Qed.

Lemma tab_passed_through_witness :
  let api := Example.serve (Example.http_200 (Example.balances_of [Example.eth]))
               Example.http_500 Example.http_500 in
  let req := Example.get_wallet (Some (VStr "no-such-tab")) in
  let vm := or_else (outcome (handler (host := Example.host) api req))
                    (empty_view VNull VNull) in
  outcome (handler (host := Example.host) api req) = Normal vm
  /\ View.currentTab vm = VStr "no-such-tab".
Proof.
  intros api req vm.
  assert (outcome (handler (host := Example.host) api req) = Normal vm) as Hvm
    by (vm_compute; reflexivity).
  split; [exact Hvm|].
  exact (proj1 (tab_passed_through (host := Example.host) api req vm Hvm)).
Defined.

(** ** Order and fields of the records *)

(** C9, as stated, fails: a token that comes with a field named
    [amountFormatted], here the number 7, does not keep it: the record
    has the string that numbro made there. *)
Lemma upstream_amountFormatted_overwritten :
  let api := Example.serve
               (Example.http_200 (Example.balances_of [Example.preformatted]))
               Example.http_500 Example.http_500 in
  let result :=
    or_else (outcome (getWalletBalances (host := Example.host) api Example.address)) [] in
  own_enumerable Example.preformatted !! "amountFormatted" = Some (VNum 7)
  /\ (fun rec => rec !! "amountFormatted") <$> result
     = [Some (VStr "numbro(1.2345).format('0,0.[00]A')")]
  /\ (fun rec => rec !! "amountFormatted") <$> result
     <> [own_enumerable Example.preformatted !! "amountFormatted"].
Proof.
  intros api result.
  assert ((fun rec => rec !! "amountFormatted") <$> result
          = [Some (VStr "numbro(1.2345).format('0,0.[00]A')")]) as E
    by (vm_compute; reflexivity).
  split; [vm_compute; reflexivity|]. split; [exact E|].
  rewrite E. vm_compute. discriminate.
Qed.

(** C9 (amended).  When the [try] block of [getWalletBalances] completes
    on the parsed body [data], the call returns, in the order of the
    response, one record for each token whose symbol is not ['RTFKT'],
    and that record is the one derived from the token: it has every own
    property of the token under a name other than [valueUSDFormatted]
    and [amountFormatted], unchanged; [valueUSDFormatted] is numbro's
    print of [parseFloat(token.value_usd)] and [amountFormatted] its
    print of the derived amount, whatever the token held under these two
    names; and it has nothing else. *)
Theorem retained_tokens_in_order {host : Host} (api : upstream) (w : value)
    (address : string) (r : response) (data : value)
    (result : list (gmap string value)) :
  truthy w = true ->
  ToString w = Normal address ->
  api (balances_url address) = Resolved r ->
  ok r = true ->
  json r = Normal data ->
  format_balances data = Normal result ->
  outcome (getWalletBalances api w) = Normal result
  /\ Forall2
       (fun tok rec =>
          derived tok rec
          /\ (forall name, name <> "valueUSDFormatted" -> name <> "amountFormatted" ->
                rec !! name = own_enumerable tok !! name)
          /\ (exists amount usd,
                numericAmount tok = Normal amount
                /\ get tok "value_usd" ≫= parseFloat = Normal usd
                /\ rec !! "valueUSDFormatted"
                   = Some (VStr (numbro_format "$0,0.00" (SNum usd)))
                /\ rec !! "amountFormatted"
                   = Some (VStr (numbro_format "0,0.[00]A" (SNum amount))))
          /\ dom rec = dom (own_enumerable tok) ∪ {["valueUSDFormatted"; "amountFormatted"]})
       (filter (fun tok => Is_true (negb (upstream_spam tok))) (upstream_tokens data))
       result.
Proof.
  intros Hw Haddr Hapi Hok Hjson Hdata. split.
  - rewrite (getWalletBalances_unfold api w address Hw Haddr), Hapi.
    cbn [outcome settle]. rewrite Hok, Hjson. cbn. by rewrite Hdata.
  - eapply Forall2_impl; [by apply format_balances_retained|].
    intros tok rec Hd. split; [exact Hd|]. split.
    { intros name H1 H2. by apply derived_lookup. }
    destruct Hd as (amount & usd_value & usd & Ha & Hget & Husd & ->). split.
    + exists amount, usd. split; [exact Ha|]. split.
      { rewrite Hget. exact Husd. }
      split.
      * rewrite lookup_insert_ne by done. by rewrite lookup_insert_eq.
      * by rewrite lookup_insert_eq.
    + rewrite !dom_insert_L. apply set_eq. intros x.
      rewrite !elem_of_union. tauto.
Qed.

Lemma retained_tokens_in_order_witness :
  let data := Example.balances_of [Example.eth; Example.spam; Example.odd] in
  let api := Example.serve (Example.http_200 data) Example.http_500 Example.http_500 in
  let result :=
    or_else (outcome (getWalletBalances (host := Example.host) api Example.address)) [] in
  symbol <$> result = [VStr "ETH"; VStr "ODD"]
  /\ outcome (getWalletBalances (host := Example.host) api Example.address) = Normal result.
Proof.
  intros data api result. split; [vm_compute; reflexivity|].
  refine (proj1 (retained_tokens_in_order (host := Example.host) api Example.address
                   "0xd8da6bf26964af9d7eed9e03e53415d37aa96045"
                   {| status := 200; statusText := "OK"; json := Normal data |}
                   data result _ _ _ _ _ _));
    vm_compute; reflexivity.
Defined.

(** ** The loop before the fetches *)

(** C10.  The handler is the handler without the loop of lines 150-157;
    when the fetches are about to be awaited, [totalWalletUSDValue] is
    [numbro(0).format('$0,0.00')], no request has been sent and nothing
    was thrown; and what is rendered for a wallet address is the
    two-decimal print of the sum that [reduce] makes of the fetched
    tokens. *)
Theorem loop_before_fetch_is_dead {host : Host} (api : upstream) (req : request) :
  handler api req = handler_without_loop api req
  /\ before_fetch initial
     = Step (Normal tt)
            (set_totalWalletUSDValue
               (SStr (numbro_format "$0,0.00" (SNum 0%float))) initial)
            []
  /\ (forall vm,
        truthy (default (VStr "") (query_walletAddress req)) = true ->
        outcome (handler api req) = Normal vm ->
        exists total,
          reduce_value_usd (View.tokens vm) 0%float = Normal total
          /\ View.totalWalletUSDValue vm = "$" +:+ toFixed 2 total).
Proof.
  split; [apply handler_without_loop_eq|]. split; [apply before_fetch_initial|].
  intros vm Hw Hvm.
  pose proof Hvm as (t & ts & a & c & Hj & ->)%handler_rendered; [|done].
  exists (portfolio_total (t :: ts)). split; [|done].
  apply Promise_all3_normal in Hj as (Hb & _ & _).
  apply reduce_value_usd_sum. by apply (getWalletBalances_values api _ _ Hb).
Qed.

Lemma loop_before_fetch_is_dead_witness :
  let api := Example.serve
               (Example.http_200 (Example.balances_of [Example.eth; Example.odd]))
               Example.http_500 Example.http_500 in
  let req := Example.get_wallet None in
  let vm := or_else (outcome (handler (host := Example.host) api req))
                    (empty_view VNull VNull) in
  handler (host := Example.host) api req = handler_without_loop (host := Example.host) api req
  /\ exists total,
       reduce_value_usd (View.tokens vm) 0%float = Normal total
       /\ View.totalWalletUSDValue vm = "$" +:+ toFixed 2 total.
Proof.
  intros api req vm.
  pose proof (loop_before_fetch_is_dead (host := Example.host) api req) as (H1 & _ & H3).
  split; [exact H1|].
  apply H3; vm_compute; reflexivity.
Defined.

(* ===================================================================== *)
(** * More facts about the embedding                                      *)
(* ===================================================================== *)

Module MoreFacts.
Import JS Server Terms Shapes Facts.

Section Numerals.

Lemma all_digits_app a b : all_digits (a +:+ b) = all_digits a && all_digits b.
Proof.
  induction a as [|c a IH]; simpl; [done|]. rewrite IH. by rewrite andb_assoc.
Qed.

Lemma length_append a b :
  String.length (a +:+ b) = (String.length a + String.length b)%nat.
Proof. induction a as [|c a IH]; simpl; [done|]. by rewrite IH. Qed.

Lemma all_digits_zeros n : all_digits (zeros n) = true.
Proof. induction n as [|n IH]; cbn; [done|]. exact IH. Qed.

Lemma length_zeros n : String.length (zeros n) = n.
Proof. induction n as [|n IH]; cbn; [done|]. by rewrite IH. Qed.

Lemma all_digits_digits_go fuel n acc :
  all_digits acc = true -> all_digits (digits_go fuel n acc) = true.
Proof.
  revert n acc. induction fuel as [|fuel IH]; intros n acc Hacc; [done|].
  cbn [digits_go].
  assert (all_digits (String (digit_char (n mod 10)) acc) = true) as H.
  { cbn. rewrite Hacc, is_digit_digit_char; [done|]. apply Z.mod_pos_bound. lia. }
  destruct (n <? 10); [exact H | by apply IH].
Qed.

Lemma all_digits_digits n : all_digits (digits n) = true.
Proof. by apply all_digits_digits_go. Qed.

Lemma length_digits_go fuel n acc :
  (String.length acc <= String.length (digits_go fuel n acc))%nat.
Proof.
  revert n acc. induction fuel as [|fuel IH]; intros n acc; [done|].
  cbn [digits_go]. destruct (n <? 10); [cbn; lia|].
  etrans; [|apply IH]. cbn. lia.
Qed.

Lemma length_digits n : (1 <= String.length (digits n))%nat.
Proof.
  unfold digits. cbn [digits_go]. destruct (n <? 10); [done|].
  etrans; [|apply length_digits_go]. done.
Qed.

Lemma substring_all s : substring 0 (String.length s) s = s.
Proof. induction s as [|c s IH]; cbn; [done|]. by rewrite IH. Qed.

(** Cutting a string at [n] gives two parts that make it up, the first
    of length [n]. *)
Lemma str_take_drop s n :
  (n <= String.length s)%nat ->
  str_take n s +:+ str_drop n s = s
  /\ String.length (str_take n s) = n
  /\ String.length (str_drop n s) = (String.length s - n)%nat.
Proof.
  unfold str_take, str_drop. revert s.
  induction n as [|n IH]; intros s Hn.
  - rewrite Nat.sub_0_r, substring_all. by destruct s.
  - destruct s as [|c s]; [cbn in Hn; lia|]. cbn in Hn.
    destruct (IH s ltac:(lia)) as (H1 & H2 & H3).
    simpl. rewrite H2, H3. split; [|done].
    change (String c (substring 0 n s) +:+ ?t) with (String c (substring 0 n s +:+ t)).
    by rewrite H1.
Qed.

Lemma toFixed_2_shape x :
  PrimFloat.is_finite x = true ->
  PrimFloat.leb 1e21%float (PrimFloat.abs x) = false ->
  two_decimal_numeral (toFixed 2 x).
Proof.
  intros Hfin Hsmall. unfold toFixed. rewrite Hfin. cbn [negb].
  destruct (fraction_of x) as [[[neg num] den]|].
  - rewrite Hsmall. cbn [Nat.eqb].
    set (n := (2 * num * 10 ^ Z.of_nat 2 + den) / (2 * den)).
    set (m := if (String.length (digits n) <=? 2)%nat
              then zeros (2 + 1 - String.length (digits n)) +:+ digits n
              else digits n).
    assert (all_digits m = true /\ (3 <= String.length m)%nat) as [Hm Hlen].
    { unfold m. pose proof (length_digits n).
      destruct (String.length (digits n) <=? 2)%nat eqn:Hk.
      - apply Nat.leb_le in Hk.
        rewrite all_digits_app, all_digits_zeros, all_digits_digits.
        rewrite length_append, length_zeros. split; [done|lia].
      - apply Nat.leb_gt in Hk. rewrite all_digits_digits. split; [done|lia]. }
    destruct (str_take_drop m (String.length m - 2)) as (Hcut & Htake & Hdrop); [lia|].
    exists (if neg then "-" else ""),
           (str_take (String.length m - 2) m),
           (str_drop (String.length m - 2) m).
    rewrite <- Hcut, all_digits_app in Hm. apply andb_true_iff in Hm as [Hm1 Hm2].
    split; [done|]. split; [destruct neg; auto|].
    split; [done|]. split.
    { intros Hempty. rewrite Hempty in Htake. cbn in Htake. lia. }
    split; [done|]. rewrite Hdrop. lia.
  - exists "", "0", "00". cbn. auto 10.
Qed.

Lemma Number_toString_non_finite x :
  PrimFloat.is_finite x = false ->
  Number_toString x = "NaN" \/ Number_toString x = "Infinity"
  \/ Number_toString x = "-Infinity".
Proof.
  unfold Number_toString, PrimFloat.is_finite, PrimFloat.is_nan,
    PrimFloat.is_zero, PrimFloat.is_infinity.
  rewrite !FloatAxioms.eqb_spec, abs_spec, ltb_spec.
  change (Prim2SF PrimFloat.zero) with (S754_zero false).
  change (Prim2SF PrimFloat.infinity) with (S754_infinity false).
  destruct (Prim2SF x) as [b|b| |b m e]; cbn.
  - done.
  - destruct b; cbn; auto.
  - auto.
  - unfold SFeqb, SFcompare.
    rewrite Z.compare_refl, Pos.compare_cont_refl. by destruct b.
Qed.

Lemma toFixed_non_finite x :
  PrimFloat.is_finite x = false ->
  toFixed 2 x = "NaN" \/ toFixed 2 x = "Infinity" \/ toFixed 2 x = "-Infinity".
Proof.
  intros H. unfold toFixed. rewrite H. cbn [negb].
  by apply Number_toString_non_finite.
Qed.

End Numerals.

Section Fetchers.
Context {host : Host}.

Lemma ToString_shadowed o v :
  o !! "toString" = Some v ->
  ToString (VObj o) = Throw (TypeError "Cannot convert object to primitive value").
Proof. intros H. cbn. by rewrite H. Qed.

Lemma mapM_throw {A B} (f : A -> completion B) l x e :
  x ∈ l -> f x = Throw e -> exists e', mapM f l = Throw e'.
Proof.
  intros Hin Hx. induction l as [|y l IH]; [by apply not_elem_of_nil in Hin|].
  rewrite mapM_cons. apply elem_of_cons in Hin as [<-|Hin].
  - rewrite Hx. by exists e.
  - destruct (f y) as [z|e1]; [|by exists e1].
    destruct (IH Hin) as [e' He']. exists e'. cbn. by rewrite He'.
Qed.

Lemma getWalletActivity_unfold_limit api w limit address limit_text :
  truthy w = true ->
  ToString w = Normal address ->
  ToString (default_parameter (VNum 25%float) limit) = Normal limit_text ->
  getWalletActivity api w limit =
  Run (Normal (or_else (settle (fun data => field_or_empty data "activity")
                               (api (activity_url_limit address limit_text)))
                       (VArr [])))
      [activity_url_limit address limit_text].
Proof.
  intros Hw Haddr Hlimit. unfold getWalletActivity, activity_url_limit.
  rewrite Hw, Haddr.
  unfold mbind, run_bind, lift. cbn [outcome requests negb app].
  rewrite Hlimit. cbn [outcome requests negb app].
  match goal with |- context [fetch api ?u] => generalize u end. intros url.
  run_fetch. destruct (api url) as [e|r]; run_fetch; [done|].
  destruct (ok r); run_fetch; [|done].
  destruct (json r) as [data|e]; run_fetch; [|done].
  by destruct (field_or_empty data "activity").
Qed.

Lemma getWalletCollectibles_unfold_limit api w limit address limit_text :
  truthy w = true ->
  ToString w = Normal address ->
  ToString (default_parameter (VNum 50%float) limit) = Normal limit_text ->
  getWalletCollectibles api w limit =
  Run (Normal (or_else (settle (fun data => field_or_empty data "collectibles")
                               (api (collectibles_url_limit address limit_text)))
                       (VArr [])))
      [collectibles_url_limit address limit_text].
Proof.
  intros Hw Haddr Hlimit. unfold getWalletCollectibles, collectibles_url_limit.
  rewrite Hw, Haddr.
  unfold mbind, run_bind, lift. cbn [outcome requests negb app].
  rewrite Hlimit. cbn [outcome requests negb app].
  match goal with |- context [fetch api ?u] => generalize u end. intros url.
  run_fetch. destruct (api url) as [e|r]; run_fetch; [done|].
  destruct (ok r); run_fetch; [|done].
  destruct (json r) as [data|e]; run_fetch; [|done].
  by destruct (field_or_empty data "collectibles").
Qed.

Lemma joined_unfold api w address :
  truthy w = true ->
  ToString w = Normal address ->
  joined api w =
  Run (Normal (or_else (settle format_balances (api (balances_url address))) [],
               or_else (settle (fun data => field_or_empty data "activity")
                               (api (activity_url address))) (VArr []),
               or_else (settle (fun data => field_or_empty data "collectibles")
                               (api (collectibles_url address))) (VArr [])))
      [balances_url address; activity_url address; collectibles_url address].
Proof.
  intros Hw Haddr. unfold joined.
  rewrite (getWalletBalances_unfold api w address Hw Haddr).
  rewrite (getWalletActivity_unfold api w address Hw Haddr).
  by rewrite (getWalletCollectibles_unfold api w address Hw Haddr).
Qed.

Lemma joined_throws api w e :
  truthy w = true ->
  ToString w = Throw e ->
  joined api w = Run (Throw e) [].
Proof.
  intros Hw Haddr. unfold joined.
  rewrite (getWalletBalances_throws api w e Hw Haddr).
  rewrite (getWalletActivity_throws api w _ e Hw Haddr).
  by rewrite (getWalletCollectibles_throws api w _ e Hw Haddr).
Qed.

Lemma settle_resolved {A} (parse : value -> completion A) (f : fetched) r data :
  f = Resolved r -> ok r = true -> json r = Normal data ->
  settle parse f = parse data.
Proof. intros -> Hok Hjson. cbn. by rewrite Hok, Hjson. Qed.

Lemma derived_usd tok rec :
  derived tok rec -> usd_or_zero rec = upstream_usd_or_zero tok.
Proof.
  intros Hd. pose proof Hd as (_ & usd_value & usd & _ & Hget & Husd & _).
  unfold usd_or_zero, upstream_usd_or_zero, value_usd.
  rewrite (derived_get tok rec "value_usd" usd_value Hd) by done.
  rewrite Hget. cbn. by rewrite Husd.
Qed.

Lemma fold_derived toks recs acc :
  Forall2 derived toks recs ->
  fold_left (fun sum rec => PrimFloat.add sum (usd_or_zero rec)) recs acc
  = fold_left (fun sum tok => PrimFloat.add sum (upstream_usd_or_zero tok)) toks acc.
Proof.
  intros Hall. revert acc.
  induction Hall as [|tok rec toks recs Hd _ IH]; intros acc; [done|].
  cbn [fold_left]. rewrite IH. by rewrite (derived_usd tok rec Hd).
Qed.

End Fetchers.
Section Handlers.
Context {host : Host}.

Lemma handler_printable api req address :
  let w := default (VStr "") (query_walletAddress req) in
  let tab := default (VStr "tokens") (query_tab req) in
  let a := or_else (settle (fun data => field_or_empty data "activity")
                           (api (activity_url address))) (VArr []) in
  let c := or_else (settle (fun data => field_or_empty data "collectibles")
                           (api (collectibles_url address))) (VArr []) in
  truthy w = true ->
  ToString w = Normal address ->
  handler api req =
  Run (match or_else (settle format_balances (api (balances_url address))) [] with
       | [] => Throw toFixed_error
       | t :: ts => Normal (wallet_view w tab (t :: ts) a c)
       end)
      [balances_url address; activity_url address; collectibles_url address].
Proof.
  intros w tab a c Hw Haddr.
  pose proof (joined_unfold api w address Hw Haddr) as Hj. fold a c in Hj.
  destruct (or_else (settle format_balances (api (balances_url address))) [])
    as [|t ts].
  - rewrite (handler_no_token api req a c Hw (f_equal outcome Hj)).
    fold w. by rewrite Hj.
  - rewrite (handler_renders api req t ts a c Hw (f_equal outcome Hj)).
    fold w. by rewrite Hj.
Qed.

Lemma handler_unprintable api req e :
  let w := default (VStr "") (query_walletAddress req) in
  truthy w = true ->
  ToString w = Throw e ->
  handler api req = Run (Throw toFixed_error) [].
Proof.
  intros w Hw Haddr.
  pose proof (joined_throws api w e Hw Haddr) as Hj.
  rewrite (handler_rejected api req e Hw (f_equal outcome Hj)).
  fold w. by rewrite Hj.
Qed.

(** Whatever is rendered, the total is the two-decimal print of the sum
    over the tokens rendered. *)
Lemma rendered_total api req vm :
  outcome (handler api req) = Normal vm ->
  View.totalWalletUSDValue vm
  = "$" +:+ toFixed 2 (portfolio_total (View.tokens vm)).
Proof.
  intros Hvm.
  destruct (truthy (default (VStr "") (query_walletAddress req))) eqn:Hw.
  - by apply handler_rendered in Hvm as (t & ts & a & c & _ & ->).
  - rewrite (handler_falsy api req Hw) in Hvm. injection Hvm as <-.
    cbn [empty_view View.totalWalletUSDValue View.tokens].
    change (portfolio_total []) with 0%float. by rewrite toFixed_zero.
Qed.

Lemma earlier_handler_unfold api req :
  let w := default (VStr "") (query_walletAddress req) in
  let tab := default (VStr "tokens") (query_tab req) in
  let call := getWalletBalances api w in
  Earlier.handler api req =
  if truthy w then
    Run (Normal {| View.walletAddress := w;
                   View.currentTab := tab;
                   View.totalWalletUSDValue := "$0.00";
                   View.tokens := or_else (outcome call) [];
                   View.activities := VArr [];
                   View.collectibles := VArr [];
                   View.errorMessage :=
                     match outcome call with
                     | Normal _ => VNull
                     | Throw _ => VStr "Failed to fetch wallet data. Please try again."
                     end |})
        (requests call)
  else Run (Normal (empty_view w tab)) [].
Proof.
  intros w tab call. unfold Earlier.handler. fold w tab call.
  destruct (truthy w); [|reflexivity].
  destruct call as [[tokens|e] reqs]; run_fetch; by rewrite ?app_nil_r.
Qed.

End Handlers.

End MoreFacts.

(* ===================================================================== *)
(** * Further properties of server.js                                     *)
(* ===================================================================== *)

Import JS Server Terms Facts MoreFacts Shapes.

(** ** The fetchers *)

(** X1.  For a wallet address that is truthy and prints as [address],
    [getWalletBalances] sends exactly one request, to the balances URL
    of [address] with the two fixed query flags, and returns an array
    whatever the API answers: it never throws. *)
Theorem getWalletBalances_one_request_no_throw {host : Host}
    (api : upstream) (w : value) (address : string) :
  truthy w = true ->
  ToString w = Normal address ->
  requests (getWalletBalances api w)
  = ["https://api.sim.dune.com/v1/evm/balances/" +:+ address
     +:+ "?metadata=url,logo&exclude_spam_tokens=true"]
  /\ exists result, outcome (getWalletBalances api w) = Normal result.
Proof.
  intros Hw Haddr. rewrite (getWalletBalances_unfold api w address Hw Haddr).
  split; [reflexivity | by eexists].
Qed.

Lemma getWalletBalances_one_request_no_throw_witness :
  requests (getWalletBalances (host := Example.host)
              (Example.serve Example.http_500 Example.http_500 Example.http_500)
              Example.address)
  = [Example.balances_url].
Proof.
  exact (proj1 (getWalletBalances_one_request_no_throw (host := Example.host)
                  (Example.serve Example.http_500 Example.http_500 Example.http_500)
                  Example.address "0xd8da6bf26964af9d7eed9e03e53415d37aa96045"
                  eq_refl eq_refl)).
Defined.

(** X2.  A wallet address that is an object with an own property named
    [toString] makes each of the three fetchers reject with a TypeError
    before it sends any request: the URL is built outside the [try]. *)
Theorem fetchers_reject_shadowed_address {host : Host}
    (api : upstream) (o : gmap string value) (v : value) (limit1 limit2 : option value) :
  o !! "toString" = Some v ->
  let e := TypeError "Cannot convert object to primitive value" in
  getWalletBalances api (VObj o) = Run (Throw e) []
  /\ getWalletActivity api (VObj o) limit1 = Run (Throw e) []
  /\ getWalletCollectibles api (VObj o) limit2 = Run (Throw e) [].
Proof.
  intros Ho e. pose proof (ToString_shadowed o v Ho) as Hs.
  split; [|split].
  - by apply getWalletBalances_throws.
  - by apply getWalletActivity_throws.
  - by apply getWalletCollectibles_throws.
Qed.

Lemma fetchers_reject_shadowed_address_witness :
  getWalletBalances (host := Example.host)
    (Example.serve Example.http_500 Example.http_500 Example.http_500)
    (VObj {[ "toString" := VStr "x" ]})
  = Run (Throw (TypeError "Cannot convert object to primitive value")) [].
Proof.
  refine (proj1 (fetchers_reject_shadowed_address (host := Example.host)
                   (Example.serve Example.http_500 Example.http_500 Example.http_500)
                   {[ "toString" := VStr "x" ]} (VStr "x") None None _)).
  apply lookup_singleton_eq.
Defined.

(** X3.  One token on which the [map] callback throws (a [null] in the
    array, for one) costs all the balances: the exception is caught by
    the [catch] of line 72 and the call returns the empty array. *)
Theorem one_bad_token_drops_all {host : Host}
    (api : upstream) (w : value) (address : string) (r : response)
    (data : value) (toks : list value) (tok : value) (e : exn) :
  truthy w = true ->
  ToString w = Normal address ->
  api (balances_url address) = Resolved r ->
  ok r = true ->
  json r = Normal data ->
  get data "balances" = Normal (VArr toks) ->
  tok ∈ toks ->
  format_token tok = Throw e ->
  getWalletBalances api w = Run (Normal []) [balances_url address].
Proof.
  intros Hw Haddr Hapi Hok Hjson Hbal Hin Htok.
  destruct (mapM_throw format_token toks tok e Hin Htok) as [e' He'].
  apply (getWalletBalances_failure api w address e' Hw Haddr).
  rewrite (settle_resolved _ _ r data Hapi Hok Hjson).
  unfold format_balances. rewrite Hbal. cbn. by rewrite He'.
Qed.

Lemma one_bad_token_drops_all_witness :
  getWalletBalances (host := Example.host)
    (Example.serve (Example.http_200 (Example.balances_of [Example.eth; VNull]))
       Example.http_500 Example.http_500)
    Example.address
  = Run (Normal []) [Example.balances_url].
Proof.
  exact (one_bad_token_drops_all (host := Example.host)
           (Example.serve (Example.http_200 (Example.balances_of [Example.eth; VNull]))
              Example.http_500 Example.http_500)
           Example.address "0xd8da6bf26964af9d7eed9e03e53415d37aa96045"
           {| status := 200; statusText := "OK";
              json := Normal (Example.balances_of [Example.eth; VNull]) |}
           (Example.balances_of [Example.eth; VNull]) [Example.eth; VNull] VNull
           (TypeError "Cannot read properties of null (reading 'amount')")
           eq_refl eq_refl ltac:(vm_compute; reflexivity) eq_refl eq_refl
           ltac:(vm_compute; reflexivity)
           ltac:(repeat constructor)
           ltac:(vm_compute; reflexivity)).
Defined.

(** X4.  When the body of a 2xx response has no array under [balances]
    (the key is missing, or holds [null], a number, a string, an
    object), [getWalletBalances] returns the empty array. *)
Theorem non_array_balances_gives_none {host : Host}
    (api : upstream) (w : value) (address : string) (r : response) (data : value) :
  truthy w = true ->
  ToString w = Normal address ->
  api (balances_url address) = Resolved r ->
  ok r = true ->
  json r = Normal data ->
  (forall toks, get data "balances" <> Normal (VArr toks)) ->
  getWalletBalances api w = Run (Normal []) [balances_url address].
Proof.
  intros Hw Haddr Hapi Hok Hjson Hbal.
  rewrite (getWalletBalances_unfold api w address Hw Haddr).
  rewrite (settle_resolved _ _ r data Hapi Hok Hjson).
  f_equal. f_equal. unfold format_balances.
  destruct (get data "balances") as [b|e]; [|done].
  change (Normal b ≫= ?k) with (k b). cbv beta.
  destruct b as [| |b|x|s|toks|o]; cbn [truthy]; try done.
  - by destruct b.
  - by destruct (negb _).
  - by destruct (negb _).
  - by destruct (Hbal toks).
Qed.

Lemma non_array_balances_gives_none_witness :
  getWalletBalances (host := Example.host)
    (Example.serve (Example.http_200 Example.some_activity)
       Example.http_500 Example.http_500)
    Example.address
  = Run (Normal []) [Example.balances_url].
Proof.
  refine (non_array_balances_gives_none (host := Example.host)
            (Example.serve (Example.http_200 Example.some_activity)
               Example.http_500 Example.http_500)
            Example.address "0xd8da6bf26964af9d7eed9e03e53415d37aa96045"
            {| status := 200; statusText := "OK"; json := Normal Example.some_activity |}
            Example.some_activity
            eq_refl eq_refl ltac:(vm_compute; reflexivity) eq_refl eq_refl _).
  intros toks H. vm_compute in H. discriminate H.
Defined.

(** X5.  For a wallet address that is truthy and prints as [address],
    the join of the three fetchers always fulfils, after the three
    requests went out in the order balances, activity, collectibles;
    and what each fetcher returns depends on the answer to its own URL
    only, so that a failure on one endpoint changes nothing in what the
    two other calls return. *)
Theorem join_fulfils_slotwise {host : Host}
    (api : upstream) (w : value) (address : string) :
  truthy w = true ->
  ToString w = Normal address ->
  (exists t a c, outcome (joined api w) = Normal (t, a, c))
  /\ requests (joined api w)
     = [balances_url address; activity_url address; collectibles_url address]
  /\ (forall api' : upstream,
        (api' (balances_url address) = api (balances_url address) ->
         getWalletBalances api' w = getWalletBalances api w)
        /\ (api' (activity_url address) = api (activity_url address) ->
            getWalletActivity api' w (Some (VNum 25%float))
            = getWalletActivity api w (Some (VNum 25%float)))
        /\ (api' (collectibles_url address) = api (collectibles_url address) ->
            getWalletCollectibles api' w (Some (VNum 50%float))
            = getWalletCollectibles api w (Some (VNum 50%float)))).
Proof.
  intros Hw Haddr. rewrite (joined_unfold api w address Hw Haddr).
  split; [by eexists _, _, _|]. split; [done|].
  intros api'. split; [|split]; intros Hsame.
  - rewrite !(getWalletBalances_unfold _ w address Hw Haddr). by rewrite Hsame.
  - rewrite !(getWalletActivity_unfold _ w address Hw Haddr). by rewrite Hsame.
  - rewrite !(getWalletCollectibles_unfold _ w address Hw Haddr). by rewrite Hsame.
Qed.

Lemma join_fulfils_slotwise_witness :
  requests (joined (host := Example.host)
              (Example.serve Example.http_500 Example.http_500 Example.http_500)
              Example.address)
  = [Example.balances_url; Example.activity_url; Example.collectibles_url].
Proof.
  exact (proj1 (proj2 (join_fulfils_slotwise (host := Example.host)
                         (Example.serve Example.http_500 Example.http_500 Example.http_500)
                         Example.address "0xd8da6bf26964af9d7eed9e03e53415d37aa96045"
                         eq_refl eq_refl))).
Defined.

(** X6.  For a wallet address that prints as [address] and a limit that
    prints as [limit_text] (25 when the argument is left out or is
    [undefined]),
    [getWalletActivity] sends one request, to the activity URL of
    [address] with [limit=limit_text], and returns the empty array when
    the call fails: on a network error, on a status outside 200-299
    whatever the body, on a body that is not JSON, on the body [null]. *)
Theorem getWalletActivity_failure_empty
    (api : upstream) (w : value) (limit : option value)
    (address limit_text : string) (e : exn) :
  truthy w = true ->
  ToString w = Normal address ->
  ToString (default_parameter (VNum 25%float) limit) = Normal limit_text ->
  settle (fun data => field_or_empty data "activity")
         (api (activity_url_limit address limit_text)) = Throw e ->
  getWalletActivity api w limit
  = Run (Normal (VArr [])) [activity_url_limit address limit_text].
Proof.
  intros Hw Haddr Hlimit Hfail.
  rewrite (getWalletActivity_unfold_limit api w limit address limit_text
             Hw Haddr Hlimit).
  by rewrite Hfail.
Qed.

Lemma getWalletActivity_failure_empty_witness :
  getWalletActivity
    (Example.serve Example.http_500 Example.http_500 Example.http_500)
    Example.address None
  = Run (Normal (VArr [])) [Example.activity_url]
  /\ getWalletActivity
       (Example.serve Example.http_500 Example.http_500 Example.http_500)
       Example.address (Some VUndefined)
     = Run (Normal (VArr [])) [Example.activity_url].
Proof.
  split.
  - exact (getWalletActivity_failure_empty
             (Example.serve Example.http_500 Example.http_500 Example.http_500)
             Example.address None "0xd8da6bf26964af9d7eed9e03e53415d37aa96045" "25"
             (Error "Internal Server Error")
             eq_refl eq_refl ltac:(vm_compute; reflexivity)
             ltac:(vm_compute; reflexivity)).
  - exact (getWalletActivity_failure_empty
             (Example.serve Example.http_500 Example.http_500 Example.http_500)
             Example.address (Some VUndefined)
             "0xd8da6bf26964af9d7eed9e03e53415d37aa96045" "25"
             (Error "Internal Server Error")
             eq_refl eq_refl ltac:(vm_compute; reflexivity)
             ltac:(vm_compute; reflexivity)).
Defined.

(** X7.  On a 2xx response with a JSON body, [getWalletActivity] returns
    whatever the body holds under [activity], as it is and unchecked
    (an array or not), if that is truthy, and the empty array if the key
    is missing or holds a falsy value. *)
Theorem getWalletActivity_passes_value
    (api : upstream) (w : value) (limit : option value)
    (address limit_text : string) (r : response) (data v : value) :
  truthy w = true ->
  ToString w = Normal address ->
  ToString (default_parameter (VNum 25%float) limit) = Normal limit_text ->
  api (activity_url_limit address limit_text) = Resolved r ->
  ok r = true ->
  json r = Normal data ->
  get data "activity" = Normal v ->
  getWalletActivity api w limit
  = Run (Normal (if truthy v then v else VArr []))
        [activity_url_limit address limit_text].
Proof.
  intros Hw Haddr Hlimit Hapi Hok Hjson Hget.
  rewrite (getWalletActivity_unfold_limit api w limit address limit_text
             Hw Haddr Hlimit).
  rewrite (settle_resolved _ _ r data Hapi Hok Hjson).
  unfold field_or_empty. by rewrite Hget.
Qed.

Lemma getWalletActivity_passes_value_witness :
  getWalletActivity
    (Example.serve Example.http_500
       (Example.http_200 (VObj {[ "activity" := VStr "not an array" ]}))
       Example.http_500)
    Example.address (Some VUndefined)
  = Run (Normal (VStr "not an array")) [Example.activity_url].
Proof.
  exact (getWalletActivity_passes_value
           (Example.serve Example.http_500
              (Example.http_200 (VObj {[ "activity" := VStr "not an array" ]}))
              Example.http_500)
           Example.address (Some VUndefined)
           "0xd8da6bf26964af9d7eed9e03e53415d37aa96045" "25"
           {| status := 200; statusText := "OK";
              json := Normal (VObj {[ "activity" := VStr "not an array" ]}) |}
           (VObj {[ "activity" := VStr "not an array" ]}) (VStr "not an array")
           eq_refl eq_refl ltac:(vm_compute; reflexivity)
           ltac:(vm_compute; reflexivity) eq_refl eq_refl
           ltac:(vm_compute; reflexivity)).
Defined.

(** X8.  For a wallet address that prints as [address] and a limit that
    prints as [limit_text] (50 when the argument is left out or is
    [undefined]),
    [getWalletCollectibles] sends one request, to the collectibles URL
    of [address] with [limit=limit_text], and returns the empty array
    when the call fails. *)
Theorem getWalletCollectibles_failure_empty
    (api : upstream) (w : value) (limit : option value)
    (address limit_text : string) (e : exn) :
  truthy w = true ->
  ToString w = Normal address ->
  ToString (default_parameter (VNum 50%float) limit) = Normal limit_text ->
  settle (fun data => field_or_empty data "collectibles")
         (api (collectibles_url_limit address limit_text)) = Throw e ->
  getWalletCollectibles api w limit
  = Run (Normal (VArr [])) [collectibles_url_limit address limit_text].
Proof.
  intros Hw Haddr Hlimit Hfail.
  rewrite (getWalletCollectibles_unfold_limit api w limit address limit_text
             Hw Haddr Hlimit).
  by rewrite Hfail.
Qed.

Lemma getWalletCollectibles_failure_empty_witness :
  getWalletCollectibles
    (Example.serve Example.http_500 Example.http_500
       (Rejected (TypeError "fetch failed")))
    Example.address None
  = Run (Normal (VArr [])) [Example.collectibles_url]
  /\ getWalletCollectibles
       (Example.serve Example.http_500 Example.http_500
          (Rejected (TypeError "fetch failed")))
       Example.address (Some VUndefined)
     = Run (Normal (VArr [])) [Example.collectibles_url].
Proof.
  split.
  - exact (getWalletCollectibles_failure_empty
             (Example.serve Example.http_500 Example.http_500
                (Rejected (TypeError "fetch failed")))
             Example.address None "0xd8da6bf26964af9d7eed9e03e53415d37aa96045" "50"
             (TypeError "fetch failed")
             eq_refl eq_refl ltac:(vm_compute; reflexivity)
             ltac:(vm_compute; reflexivity)).
  - exact (getWalletCollectibles_failure_empty
             (Example.serve Example.http_500 Example.http_500
                (Rejected (TypeError "fetch failed")))
             Example.address (Some VUndefined)
             "0xd8da6bf26964af9d7eed9e03e53415d37aa96045" "50"
             (TypeError "fetch failed")
             eq_refl eq_refl ltac:(vm_compute; reflexivity)
             ltac:(vm_compute; reflexivity)).
Defined.

(** X9.  On a 2xx response with a JSON body, [getWalletCollectibles]
    returns whatever the body holds under [collectibles], as it is and
    unchecked, if that is truthy, and the empty array if the key is
    missing or holds a falsy value. *)
Theorem getWalletCollectibles_passes_value
    (api : upstream) (w : value) (limit : option value)
    (address limit_text : string) (r : response) (data v : value) :
  truthy w = true ->
  ToString w = Normal address ->
  ToString (default_parameter (VNum 50%float) limit) = Normal limit_text ->
  api (collectibles_url_limit address limit_text) = Resolved r ->
  ok r = true ->
  json r = Normal data ->
  get data "collectibles" = Normal v ->
  getWalletCollectibles api w limit
  = Run (Normal (if truthy v then v else VArr []))
        [collectibles_url_limit address limit_text].
Proof.
  intros Hw Haddr Hlimit Hapi Hok Hjson Hget.
  rewrite (getWalletCollectibles_unfold_limit api w limit address limit_text
             Hw Haddr Hlimit).
  rewrite (settle_resolved _ _ r data Hapi Hok Hjson).
  unfold field_or_empty. by rewrite Hget.
Qed.

Lemma getWalletCollectibles_passes_value_witness :
  getWalletCollectibles
    (fun _ => Example.http_200 Example.some_activity)
    Example.address (Some (VNum 10%float))
  = Run (Normal (VArr []))
        ["https://api.sim.dune.com/v1/evm/collectibles/0xd8da6bf26964af9d7eed9e03e53415d37aa96045?limit=10"].
Proof.
  exact (getWalletCollectibles_passes_value
           (fun _ => Example.http_200 Example.some_activity)
           Example.address (Some (VNum 10%float))
           "0xd8da6bf26964af9d7eed9e03e53415d37aa96045" "10"
           {| status := 200; statusText := "OK"; json := Normal Example.some_activity |}
           Example.some_activity VUndefined
           eq_refl eq_refl ltac:(vm_compute; reflexivity)
           eq_refl eq_refl eq_refl
           ltac:(vm_compute; reflexivity)).
Defined.

(** ** The route handler *)

(** X10.  For a wallet address that is truthy and prints as [address],
    the handler sends the three requests, balances, activity with limit
    25 and collectibles with limit 50, in that order and once each,
    whether it renders in the end or throws. *)
Theorem handler_three_requests {host : Host}
    (api : upstream) (req : request) (address : string) :
  truthy (default (VStr "") (query_walletAddress req)) = true ->
  ToString (default (VStr "") (query_walletAddress req)) = Normal address ->
  requests (handler api req)
  = [balances_url address; activity_url address; collectibles_url address].
Proof.
  intros Hw Haddr. by rewrite (handler_printable api req address Hw Haddr).
Qed.

Lemma handler_three_requests_witness :
  requests (handler (host := Example.host)
              (Example.serve Example.http_500 Example.http_500 Example.http_500)
              (Example.get_wallet None))
  = [Example.balances_url; Example.activity_url; Example.collectibles_url].
Proof.
  exact (handler_three_requests (host := Example.host)
           (Example.serve Example.http_500 Example.http_500 Example.http_500)
           (Example.get_wallet None) "0xd8da6bf26964af9d7eed9e03e53415d37aa96045"
           eq_refl eq_refl).
Defined.

(** X11.  For a truthy wallet address the handler renders exactly when
    [getWalletBalances] returns at least one token: with none, be it
    that the wallet is empty, that all its tokens are spam or that the
    call failed, the handler throws. *)
Theorem handler_renders_iff_token {host : Host} (api : upstream) (req : request) :
  truthy (default (VStr "") (query_walletAddress req)) = true ->
  (exists vm, outcome (handler api req) = Normal vm)
  <-> (exists t ts,
         outcome (getWalletBalances api (default (VStr "") (query_walletAddress req)))
         = Normal (t :: ts)).
Proof.
  intros Hw. set (w := default (VStr "") (query_walletAddress req)) in *. split.
  - intros [vm Hvm].
    apply handler_rendered in Hvm as (t & ts & a & c & Hj & _); [|done].
    apply Promise_all3_normal in Hj as (Hb & _ & _). by exists t, ts.
  - intros (t & ts & Hb).
    destruct (ToString w) as [address|e] eqn:Haddr.
    + rewrite (handler_printable api req address Hw Haddr). fold w.
      rewrite (getWalletBalances_unfold api w address Hw Haddr) in Hb.
      cbn [outcome] in Hb. injection Hb as ->. by eexists.
    + by rewrite (getWalletBalances_throws api w e Hw Haddr) in Hb.
Qed.

Lemma handler_renders_iff_token_witness :
  (exists vm,
     outcome (handler (host := Example.host)
                (Example.serve (Example.http_200 (Example.balances_of [Example.spam]))
                   Example.http_500 Example.http_500)
                (Example.get_wallet None)) = Normal vm)
  <-> (exists t ts,
         outcome (getWalletBalances (host := Example.host)
                    (Example.serve (Example.http_200 (Example.balances_of [Example.spam]))
                       Example.http_500 Example.http_500)
                    Example.address) = Normal (t :: ts)).
Proof.
  exact (handler_renders_iff_token (host := Example.host)
           (Example.serve (Example.http_200 (Example.balances_of [Example.spam]))
              Example.http_500 Example.http_500)
           (Example.get_wallet None) eq_refl).
Defined.

(** X12.  The only exception that leaves the handler is the TypeError of
    [totalWalletUSDValue.toFixed] on line 183, and it does so for a
    truthy wallet address only: no error of a fetch, of the parsing of a
    body or of the conversion of the address reaches the caller. *)
Theorem handler_throws_only_toFixed {host : Host}
    (api : upstream) (req : request) (e : exn) :
  outcome (handler api req) = Throw e ->
  e = toFixed_error
  /\ truthy (default (VStr "") (query_walletAddress req)) = true.
Proof.
  rewrite handler_unfold.
  destruct (truthy (default (VStr "") (query_walletAddress req))); [|done].
  cbn [outcome].
  destruct (outcome (joined api _)) as [[[[|t ts] a] c]|e']; try by intros [= <-].
  destruct (reduce_value_usd (t :: ts) 0%float); [done | by intros [= <-]].
Qed.

Lemma handler_throws_only_toFixed_witness :
  TypeError "totalWalletUSDValue.toFixed is not a function" = toFixed_error
  /\ truthy (default (VStr "") (query_walletAddress Example.shadowing_request)) = true.
Proof.
  exact (handler_throws_only_toFixed (host := Example.host)
           (Example.serve Example.http_500 Example.http_500 Example.http_500)
           Example.shadowing_request
           (TypeError "totalWalletUSDValue.toFixed is not a function")
           ltac:(vm_compute; reflexivity)).
Defined.

(** X13.  No view model that the handler renders carries an error
    message: [errorMessage] is [null] in every one of them, the message
    of line 176 being set only on paths that end in the exception of
    line 183. *)
Theorem rendered_error_message_is_null {host : Host}
    (api : upstream) (req : request) (vm : View.t) :
  outcome (handler api req) = Normal vm ->
  View.errorMessage vm = VNull.
Proof.
  intros Hvm.
  destruct (truthy (default (VStr "") (query_walletAddress req))) eqn:Hw.
  - by apply handler_rendered in Hvm as (t & ts & a & c & _ & ->).
  - rewrite (handler_falsy api req Hw) in Hvm. by injection Hvm as <-.
Qed.

Lemma rendered_error_message_is_null_witness :
  View.errorMessage
    (or_else (outcome (handler (host := Example.host)
                         (Example.serve (Example.http_200 (Example.balances_of [Example.eth]))
                            Example.http_500 Example.http_500)
                         (Example.get_wallet None)))
             (empty_view VNull (VStr "no view")))
  = VNull.
Proof.
  apply (rendered_error_message_is_null (host := Example.host)
           (Example.serve (Example.http_200 (Example.balances_of [Example.eth]))
              Example.http_500 Example.http_500)
           (Example.get_wallet None)).
  vm_compute. reflexivity.
Defined.

(** X14.  What is rendered echoes the query and shows what was fetched:
    [walletAddress] is the parameter of the query as it came (the empty
    string when absent), and [tokens], [activities] and [collectibles]
    are what [getWalletBalances], [getWalletActivity] with limit 25 and
    [getWalletCollectibles] with limit 50 return for it. *)
Theorem rendered_view_shows_fetched {host : Host}
    (api : upstream) (req : request) (vm : View.t) :
  outcome (handler api req) = Normal vm ->
  let w := default (VStr "") (query_walletAddress req) in
  View.walletAddress vm = w
  /\ outcome (getWalletBalances api w) = Normal (View.tokens vm)
  /\ outcome (getWalletActivity api w (Some (VNum 25%float)))
     = Normal (View.activities vm)
  /\ outcome (getWalletCollectibles api w (Some (VNum 50%float)))
     = Normal (View.collectibles vm).
Proof.
  intros Hvm w. destruct (truthy w) eqn:Hw.
  - apply handler_rendered in Hvm as (t & ts & a & c & Hj & ->); [|done].
    apply Promise_all3_normal in Hj as (Hb & Ha & Hc). by fold w in Hb, Ha, Hc.
  - rewrite (handler_falsy api req Hw) in Hvm. injection Hvm as <-.
    rewrite (getWalletBalances_falsy api w Hw).
    unfold getWalletActivity, getWalletCollectibles. by rewrite Hw.
Qed.

Lemma rendered_view_shows_fetched_witness :
  let api := Example.serve (Example.http_200 (Example.balances_of [Example.eth]))
               Example.http_500
               (Example.http_200 Example.some_collectibles) in
  let vm := or_else (outcome (handler (host := Example.host) api (Example.get_wallet None)))
                    (empty_view VNull VNull) in
  View.walletAddress vm = Example.address
  /\ outcome (getWalletCollectibles api Example.address (Some (VNum 50%float)))
     = Normal (View.collectibles vm).
Proof.
  intros api vm.
  pose proof (rendered_view_shows_fetched (host := Example.host) api
                (Example.get_wallet None) vm ltac:(vm_compute; reflexivity))
    as (Haddr & _ & _ & Hcol).
  split; [exact Haddr | exact Hcol].
Defined.

(** ** The total that is rendered *)

(** X15.  When the sum of the USD values of the tokens rendered is
    finite and below 10^21 in magnitude, the total is a dollar sign
    followed by an optional minus sign, at least one digit, a point and
    exactly two digits. *)
Theorem rendered_total_two_decimals {host : Host}
    (api : upstream) (req : request) (vm : View.t) :
  outcome (handler api req) = Normal vm ->
  PrimFloat.is_finite (portfolio_total (View.tokens vm)) = true ->
  PrimFloat.leb 1e21%float (PrimFloat.abs (portfolio_total (View.tokens vm))) = false ->
  exists numeral,
    View.totalWalletUSDValue vm = "$" +:+ numeral /\ two_decimal_numeral numeral.
Proof.
  intros Hvm Hfin Hsmall. exists (toFixed 2 (portfolio_total (View.tokens vm))).
  split; [by apply (rendered_total api req) | by apply toFixed_2_shape].
Qed.

Lemma rendered_total_two_decimals_witness :
  let api := Example.serve (Example.http_200 (Example.balances_of [Example.eth]))
               Example.http_500 Example.http_500 in
  let vm := or_else (outcome (handler (host := Example.host) api (Example.get_wallet None)))
                    (empty_view VNull VNull) in
  exists numeral,
    View.totalWalletUSDValue vm = "$" +:+ numeral /\ two_decimal_numeral numeral.
Proof.
  intros api vm.
  apply (rendered_total_two_decimals (host := Example.host) api (Example.get_wallet None));
    vm_compute; reflexivity.
Defined.

(** X16.  When the [value_usd] of every token rendered is non-numeric,
    the total is [$0.00]. *)
Theorem rendered_total_non_numeric_zero {host : Host}
    (api : upstream) (req : request) (vm : View.t) :
  outcome (handler api req) = Normal vm ->
  Forall (fun rec => exists v, parseFloat (value_usd rec) = Normal v
                               /\ PrimFloat.is_nan v = true)
         (View.tokens vm) ->
  View.totalWalletUSDValue vm = "$0.00".
Proof.
  intros Hvm Hall. rewrite (rendered_total api req vm Hvm).
  assert (portfolio_total (View.tokens vm) = 0%float) as ->; [|by rewrite toFixed_zero].
  unfold portfolio_total. induction Hall as [|rec l (v & Hv & Hnan) _ IH]; [done|].
  cbn [fold_left]. unfold usd_or_zero at 2. rewrite Hv, Hnan. exact IH.
Qed.

Lemma rendered_total_non_numeric_zero_witness :
  let api := Example.serve (Example.http_200 (Example.balances_of [Example.odd]))
               Example.http_500 Example.http_500 in
  let vm := or_else (outcome (handler (host := Example.host) api (Example.get_wallet None)))
                    (empty_view VNull VNull) in
  View.totalWalletUSDValue vm = "$0.00".
Proof.
  intros api vm.
  apply (rendered_total_non_numeric_zero (host := Example.host) api (Example.get_wallet None));
    [vm_compute; reflexivity|].
  assert (value_usd <$> View.tokens vm = [VNull]) as E by (vm_compute; reflexivity).
  destruct (View.tokens vm) as [|rec [|rec' l]]; try discriminate E.
  injection E as E. constructor; [|constructor].
  exists PrimFloat.nan. rewrite E. split; vm_compute; reflexivity.
Defined.

(** X17.  When that sum is not finite (an infinite [value_usd], an
    overflow, or infinities of both signs, which add up to NaN in spite
    of the test of line 171), the total is [$Infinity], [$-Infinity] or
    [$NaN]. *)
Theorem rendered_total_non_finite {host : Host}
    (api : upstream) (req : request) (vm : View.t) :
  outcome (handler api req) = Normal vm ->
  PrimFloat.is_finite (portfolio_total (View.tokens vm)) = false ->
  View.totalWalletUSDValue vm = "$NaN"
  \/ View.totalWalletUSDValue vm = "$Infinity"
  \/ View.totalWalletUSDValue vm = "$-Infinity".
Proof.
  intros Hvm Hinf. rewrite (rendered_total api req vm Hvm).
  destruct (toFixed_non_finite _ Hinf) as [-> | [-> | ->]]; auto.
Qed.

Lemma rendered_total_non_finite_witness :
  let api := Example.serve
               (Example.http_200
                  (Example.balances_of
                     [Example.token "A" "1" 0 (VStr "Infinity");
                      Example.token "B" "1" 0 (VStr "-Infinity")]))
               Example.http_500 Example.http_500 in
  let vm := or_else (outcome (handler (host := Example.host) api (Example.get_wallet None)))
                    (empty_view VNull VNull) in
  View.totalWalletUSDValue vm = "$NaN"
  \/ View.totalWalletUSDValue vm = "$Infinity"
  \/ View.totalWalletUSDValue vm = "$-Infinity".
Proof.
  intros api vm.
  apply (rendered_total_non_finite (host := Example.host) api (Example.get_wallet None));
    vm_compute; reflexivity.
Defined.

(** X18.  On a 2xx balances response with the JSON body [data], the
    total that is rendered is the two-decimal print of the sum, in the
    order of the response, of [parseFloat(token.value_usd)] (NaN
    counting as 0) over the tokens of [data] whose symbol is not
    ['RTFKT']: what a spam token is worth is left out of the total. *)
Theorem total_sums_upstream_non_spam {host : Host}
    (api : upstream) (req : request) (address : string)
    (r : response) (data : value) (vm : View.t) :
  truthy (default (VStr "") (query_walletAddress req)) = true ->
  ToString (default (VStr "") (query_walletAddress req)) = Normal address ->
  api (balances_url address) = Resolved r ->
  ok r = true ->
  json r = Normal data ->
  outcome (handler api req) = Normal vm ->
  View.totalWalletUSDValue vm
  = "$" +:+ toFixed 2
      (fold_left (fun sum tok => PrimFloat.add sum (upstream_usd_or_zero tok))
         (filter (fun tok => Is_true (negb (upstream_spam tok))) (upstream_tokens data))
         0%float).
Proof.
  intros Hw Haddr Hapi Hok Hjson Hvm. rewrite (rendered_total api req vm Hvm).
  do 2 f_equal.
  apply handler_rendered in Hvm as (t & ts & a & c & Hj & ->); [|done].
  apply Promise_all3_normal in Hj as (Hb & _ & _).
  rewrite (getWalletBalances_unfold api _ address Hw Haddr) in Hb.
  rewrite (settle_resolved _ _ r data Hapi Hok Hjson) in Hb.
  cbn [outcome wallet_view View.tokens] in *.
  destruct (format_balances data) as [result|e] eqn:Hdata; [|done].
  cbn [or_else] in Hb. injection Hb as ->.
  apply fold_derived. by apply format_balances_retained.
Qed.

Lemma total_sums_upstream_non_spam_witness :
  let data := Example.balances_of [Example.eth; Example.spam] in
  let api := Example.serve (Example.http_200 data) Example.http_500 Example.http_500 in
  let vm := or_else (outcome (handler (host := Example.host) api (Example.get_wallet None)))
                    (empty_view VNull VNull) in
  View.totalWalletUSDValue vm
  = "$" +:+ toFixed 2
      (fold_left (fun sum tok => PrimFloat.add sum (upstream_usd_or_zero tok))
         (filter (fun tok => Is_true (negb (upstream_spam tok))) (upstream_tokens data))
         0%float).
Proof.
  intros data api vm.
  apply (total_sums_upstream_non_spam (host := Example.host) api (Example.get_wallet None)
           "0xd8da6bf26964af9d7eed9e03e53415d37aa96045"
           {| status := 200; statusText := "OK"; json := Normal data |});
    vm_compute; reflexivity.
Defined.

(** ** The earlier handler *)

(** X19.  The earlier handler renders on every request, after one
    request at most; the view model echoes the wallet address and the
    tab (with the defaults [''] and ['tokens']), its total is [$0.00]
    and it has no activity and no collectible. *)
Theorem earlier_handler_always_renders {host : Host} (api : upstream) (req : request) :
  exists vm,
    outcome (Earlier.handler api req) = Normal vm
    /\ View.walletAddress vm = default (VStr "") (query_walletAddress req)
    /\ View.currentTab vm = default (VStr "tokens") (query_tab req)
    /\ View.totalWalletUSDValue vm = "$0.00"
    /\ View.activities vm = VArr []
    /\ View.collectibles vm = VArr []
    /\ (length (requests (Earlier.handler api req)) <= 1)%nat.
Proof.
  rewrite earlier_handler_unfold.
  set (w := default (VStr "") (query_walletAddress req)).
  destruct (truthy w) eqn:Hw.
  - eexists. split; [reflexivity|]. cbn. repeat (split; [done|]).
    destruct (ToString w) as [address|e] eqn:Haddr.
    + by rewrite (getWalletBalances_unfold api w address Hw Haddr).
    + rewrite (getWalletBalances_throws api w e Hw Haddr). cbn. lia.
  - eexists. split; [reflexivity|]. cbn. repeat (split; [done|]). lia.
Qed.

(** X20.  In the view model of the earlier handler, [tokens] is what
    [getWalletBalances] returned and [errorMessage] is [null], unless
    the call threw: then [tokens] is empty and [errorMessage] is the
    message of line 284.  So a failed balances request, which makes the
    call return the empty array, shows as an empty page without
    message. *)
Theorem earlier_handler_tokens_and_message {host : Host}
    (api : upstream) (req : request) (vm : View.t) :
  outcome (Earlier.handler api req) = Normal vm ->
  match outcome (getWalletBalances api (default (VStr "") (query_walletAddress req))) with
  | Normal tokens => View.tokens vm = tokens /\ View.errorMessage vm = VNull
  | Throw _ =>
      View.tokens vm = []
      /\ View.errorMessage vm = VStr "Failed to fetch wallet data. Please try again."
  end.
Proof.
  rewrite earlier_handler_unfold.
  set (w := default (VStr "") (query_walletAddress req)).
  destruct (truthy w) eqn:Hw.
  - intros [= <-]. cbn. by destruct (outcome (getWalletBalances api w)).
  - intros [= <-]. by rewrite (getWalletBalances_falsy api w Hw).
Qed.

Lemma earlier_handler_tokens_and_message_witness :
  let api := Example.serve Example.http_500 Example.http_500 Example.http_500 in
  let vm := or_else (outcome (Earlier.handler (host := Example.host) api
                                Example.shadowing_request))
                    (empty_view VNull VNull) in
  View.tokens vm = []
  /\ View.errorMessage vm = VStr "Failed to fetch wallet data. Please try again.".
Proof.
  intros api vm.
  pose proof (earlier_handler_tokens_and_message (host := Example.host) api
                Example.shadowing_request vm ltac:(vm_compute; reflexivity)) as H.
  assert (outcome (getWalletBalances (host := Example.host) api
                     (default (VStr "") (query_walletAddress Example.shadowing_request)))
          = Throw (TypeError "Cannot convert object to primitive value")) as E
    by (vm_compute; reflexivity).
  rewrite E in H. exact H.
Defined.

(** X21.  Whenever the handler renders, the earlier handler renders too,
    with the same wallet address, tab and tokens and without error
    message. *)
Theorem handlers_agree_on_tokens {host : Host}
    (api : upstream) (req : request) (vm : View.t) :
  outcome (handler api req) = Normal vm ->
  exists vm',
    outcome (Earlier.handler api req) = Normal vm'
    /\ View.walletAddress vm' = View.walletAddress vm
    /\ View.currentTab vm' = View.currentTab vm
    /\ View.tokens vm' = View.tokens vm
    /\ View.errorMessage vm' = VNull.
Proof.
  intros Hvm. rewrite earlier_handler_unfold.
  set (w := default (VStr "") (query_walletAddress req)).
  destruct (truthy w) eqn:Hw.
  - apply handler_rendered in Hvm as (t & ts & a & c & Hj & ->); [|done].
    apply Promise_all3_normal in Hj as (Hb & _ & _). fold w in Hb.
    eexists. split; [reflexivity|]. cbn. by rewrite Hb.
  - rewrite (handler_falsy api req Hw) in Hvm. injection Hvm as <-.
    by eexists.
Qed.

Lemma handlers_agree_on_tokens_witness :
  let api := Example.serve (Example.http_200 (Example.balances_of [Example.eth]))
               Example.http_500 Example.http_500 in
  let vm := or_else (outcome (handler (host := Example.host) api (Example.get_wallet None)))
                    (empty_view VNull VNull) in
  exists vm',
    outcome (Earlier.handler (host := Example.host) api (Example.get_wallet None))
    = Normal vm'
    /\ View.walletAddress vm' = View.walletAddress vm
    /\ View.currentTab vm' = View.currentTab vm
    /\ View.tokens vm' = View.tokens vm
    /\ View.errorMessage vm' = VNull.
Proof.
  intros api vm.
  apply (handlers_agree_on_tokens (host := Example.host) api (Example.get_wallet None)).
  vm_compute. reflexivity.
Defined.
